(** * Attrition-risk scoring handler: a shallow embedding of
      [src/pages/api/score.ts]

    The handler is embedded as a function of the request and of the outcomes
    of its external calls (auth client, weight storage, narrative service,
    persistence store).  In the handler, numbers are exact rationals plus
    [NaN]; the arithmetic of lines 86-87 and 105-112 is embedded a second
    time in [Double], on IEEE 754 binary64 values with their rounding and
    their infinities.  Strings are sequences of UTF-16 code units. *)

From Stdlib Require Import ZArith NArith QArith Qround List String Ascii Bool Lia Lqa.
From Stdlib Require Import SpecFloat.
From stdpp Require Import gmap.
Import ListNotations.

(** ** The fragment of JavaScript the handler relies on *)
Module JS.

(** A string is the list of its UTF-16 code units. *)
Definition jsstring := list N.

(** An ASCII literal of the source as code units. *)
Definition str (s : string) : jsstring :=
  map N_of_ascii (list_ascii_of_string s).

Definition jsstring_eqb (a b : jsstring) : bool := bool_decide (a = b).

(** *** Numbers *)

Inductive num :=
| Fin (q : Q)
| NaN.

(** An integer literal of the source. *)
Definition of_Z (z : Z) : num := Fin (inject_Z z).

Definition add (a b : num) : num :=
  match a, b with Fin x, Fin y => Fin (x + y) | _, _ => NaN end.

Definition sub (a b : num) : num :=
  match a, b with Fin x, Fin y => Fin (x - y) | _, _ => NaN end.

Definition mul (a b : num) : num :=
  match a, b with Fin x, Fin y => Fin (x * y) | _, _ => NaN end.

(** Division is only ever by the literal 5 in the source. *)
Definition div (a b : num) : num :=
  match a, b with Fin x, Fin y => Fin (x / y) | _, _ => NaN end.

(** [a <= b] and [a >= b]: false as soon as one side is NaN. *)
Definition lte (a b : num) : bool :=
  match a, b with Fin x, Fin y => Qle_bool x y | _, _ => false end.

Definition gte (a b : num) : bool := lte b a.

(** [a === b] on numbers. *)
Definition strict_eq (a b : num) : bool :=
  match a, b with Fin x, Fin y => Qeq_bool x y | _, _ => false end.

Declare Scope js_scope.
Delimit Scope js_scope with js.
Bind Scope js_scope with num.
Infix "+" := add : js_scope.
Infix "-" := sub : js_scope.
Infix "*" := mul : js_scope.
Infix "/" := div : js_scope.
Infix "<=?" := lte : js_scope.
Infix ">=?" := gte : js_scope.

(** [Math.round]: the nearest integer, ties towards plus infinity. *)
Definition Math_round (a : num) : num :=
  match a with
  | Fin x => of_Z (Qfloor (x + (1 # 2)))
  | NaN => NaN
  end.

Definition Math_min (a b : num) : num :=
  match a, b with
  | Fin x, Fin y => Fin (if Qle_bool x y then x else y)
  | _, _ => NaN
  end.

Definition Math_max (a b : num) : num :=
  match a, b with
  | Fin x, Fin y => Fin (if Qle_bool x y then y else x)
  | _, _ => NaN
  end.

(** *** Property lookup on an object literal

    [o[k]] on a plain object finds an own property first and a member
    inherited from [Object.prototype] otherwise; such a member is a function
    or an object, never a number. *)

Inductive value :=
| VNum (n : num)
| VInherited (k : jsstring).

Definition Object_prototype : list jsstring :=
  [ str "constructor"; str "__defineGetter__"; str "__defineSetter__";
    str "hasOwnProperty"; str "__lookupGetter__"; str "__lookupSetter__";
    str "isPrototypeOf"; str "propertyIsEnumerable"; str "toString";
    str "valueOf"; str "__proto__"; str "toLocaleString" ].

Definition inherited (k : jsstring) : bool :=
  existsb (jsstring_eqb k) Object_prototype.

(** [o[k]], [None] standing for [undefined]. *)
Definition get (o : gmap jsstring Q) (k : jsstring) : option value :=
  match o !! k with
  | Some v => Some (VNum (Fin v))
  | None => if inherited k then Some (VInherited k) else None
  end.

(** [o?.f] *)
Definition chain {A B} (o : option A) (f : A -> option B) : option B :=
  match o with Some a => f a | None => None end.

(** Truthiness of an optional object. *)
Definition has {A} (o : option A) : bool :=
  match o with Some _ => true | None => false end.

(** [a ?? b] *)
Definition nullish {A} (a : option A) (b : A) : A :=
  match a with Some v => v | None => b end.

(** Conversion to a number, as applied by [*] and [Math.round]. *)
Definition ToNumber (v : value) : num :=
  match v with VNum n => n | VInherited _ => NaN end.

(** *** Strings: [split('\n')], [trim], [slice(0, n)] *)

Definition LF : N := 10.

Fixpoint split_lines (s : jsstring) : list jsstring :=
  match s with
  | [] => [[]]
  | c :: s' =>
      if N.eqb c LF then [] :: split_lines s'
      else match split_lines s' with
           | l :: ls => (c :: l) :: ls
           | [] => [[c]]
           end
  end.

(** White space and line terminators, the code units [trim] removes. *)
Definition is_space (c : N) : bool :=
  existsb (N.eqb c)
    [9; 10; 11; 12; 13; 32; 160; 5760; 8232; 8233; 8239; 8287; 12288; 65279]%N
  || (N.leb 8192 c && N.leb c 8202).

Fixpoint trimStart (s : jsstring) : jsstring :=
  match s with
  | c :: s' => if is_space c then trimStart s' else s
  | [] => []
  end.

Definition trim (s : jsstring) : jsstring :=
  rev (trimStart (rev (trimStart s))).

(** [s.startsWith(pat)] *)
Fixpoint starts_with (pat s : jsstring) : bool :=
  match pat, s with
  | [], _ => true
  | a :: pat', b :: s' => N.eqb a b && starts_with pat' s'
  | _ :: _, [] => false
  end.

(** [s.replace(pat, rep)] for a string pattern: the first occurrence only. *)
Fixpoint replace (s pat rep : jsstring) : jsstring :=
  if starts_with pat s then rep ++ skipn (length pat) s
  else match s with
       | [] => []
       | c :: s' => c :: replace s' pat rep
       end.

(** [Boolean(s)] on a string. *)
Definition nonempty (s : jsstring) : bool :=
  match s with [] => false | _ :: _ => true end.

(** *** Parsed JSON *)

#[local] Unset Elimination Schemes.
Inductive json :=
| JNull
| JBool (b : bool)
| JNum (q : Q)
| JStr (s : jsstring)
| JArr (l : list json)
| JObj (fields : list (jsstring * json)).
#[local] Set Elimination Schemes.

Fixpoint own (fields : list (jsstring * json)) (k : jsstring) : option json :=
  match fields with
  | [] => None
  | (k', v) :: rest => if jsstring_eqb k k' then Some v else own rest k
  end.

(** [v.k] on a value other than [null], for the names the handler reads
    ([narrative], [recommendations], [length]); none of them is inherited
    from a prototype, and [length] is built in on arrays and strings.  The
    result is [JNull] for [undefined] and [null] alike: the handler only
    tests it with [??] and for truthiness. *)
Definition prop (v : json) (k : jsstring) : json :=
  match v with
  | JObj fields => nullish (own fields k) JNull
  | JArr l => if jsstring_eqb k (str "length")
              then JNum (inject_Z (Z.of_nat (length l))) else JNull
  | JStr s => if jsstring_eqb k (str "length")
              then JNum (inject_Z (Z.of_nat (length s))) else JNull
  | _ => JNull
  end.

Definition truthy (v : json) : bool :=
  match v with
  | JNull => false
  | JBool b => b
  | JNum q => negb (Qeq_bool q 0)
  | JStr s => nonempty s
  | JArr _ | JObj _ => true
  end.

(** [a ?? b] on JSON values. *)
Definition coalesce (a b : json) : json :=
  match a with JNull => b | _ => a end.

End JS.

(** ** The scoring handler *)
Module Score.
Import JS.

(** [type Payload]; [noticePeriodDays] is optional here because the handler
    supplies a default for it. *)
Record Payload := {
  fullName : jsstring;
  email : jsstring;
  dateOfBirth : option jsstring;
  gender : option jsstring;
  employmentStatus : option jsstring;
  totalExperience : Q;
  skillProficiencyAvg : Q;
  trainingHours12mo : Q;
  performanceRating : Q;
  linkedinNetworkSize : jsstring;
  willingToRelocate : jsstring;
  preferredWorkModel : option jsstring;
  noticePeriodDays : option Q
}.

(** The weights object, each member as the number [*] reads it: [NaN] for
    a member that is missing or not a number. *)
Record Weights := {
  skills : num;
  performance : num;
  network : num;
  mobility : num;
  notice : num;
  plateau : num
}.

(** [function clamp(v, a=0, b=100)] *)
Definition clamp (v a b : num) : num := Math_max a (Math_min b v).

Definition DEFAULT_WEIGHTS : Weights := {|
  skills := Fin 0.28;
  performance := Fin 0.22;
  network := Fin 0.18;
  mobility := Fin 0.12;
  notice := Fin 0.12;
  plateau := Fin 0.08
|}.

(** *** Factors (lines 86-103) *)

Definition skillsRisk (p : Payload) : num :=
  (of_Z 100 - (Fin (skillProficiencyAvg p) / of_Z 5) * of_Z 100)%js.

Definition performanceRisk (p : Payload) : num :=
  (of_Z 100 - (Fin (performanceRating p) / of_Z 5) * of_Z 100)%js.

(** The en dash of the source keys is code unit 8211. *)
Definition networkMap : gmap jsstring Q :=
  {[ str "< 500" := 70%Q;
     str "500" ++ 8211%N :: str "1,000" := 50%Q;
     str "1,001" ++ 8211%N :: str "5,000" := 30%Q;
     str "> 5,000" := 10%Q ]}.

Definition networkRisk (p : Payload) : value :=
  nullish (get networkMap (linkedinNetworkSize p)) (VNum (of_Z 60)).

Definition mobilityRisk (p : Payload) : num :=
  if jsstring_eqb (willingToRelocate p) (str "Yes") then of_Z 10 else of_Z 40.

(** [Number(p.noticePeriodDays ?? 30)] *)
Definition noticeDays (p : Payload) : num :=
  Fin (nullish (noticePeriodDays p) 30%Q).

Definition noticeRisk (p : Payload) : num :=
  let notice := noticeDays p in
  if (notice >=? of_Z 90)%js then of_Z 80
  else if (notice >=? of_Z 60)%js then of_Z 70
  else if (notice >=? of_Z 30)%js then of_Z 50
  else if (notice >=? of_Z 15)%js then of_Z 30
  else if (notice >=? of_Z 7)%js then of_Z 20
  else of_Z 10.

Definition plateauRisk (p : Payload) : num :=
  if (Fin (totalExperience p) >=? of_Z 12)%js then of_Z 40 else of_Z 20.

(** The object [{ skillsRisk, performanceRisk, networkRisk, mobilityRisk,
    noticeRisk, plateauRisk }] of lines 125 and 168. *)
Record FactorSet := {
  d_skillsRisk : num;
  d_performanceRisk : num;
  d_networkRisk : value;
  d_mobilityRisk : num;
  d_noticeRisk : num;
  d_plateauRisk : num
}.

Definition factors (p : Payload) : FactorSet := {|
  d_skillsRisk := skillsRisk p;
  d_performanceRisk := performanceRisk p;
  d_networkRisk := networkRisk p;
  d_mobilityRisk := mobilityRisk p;
  d_noticeRisk := noticeRisk p;
  d_plateauRisk := plateauRisk p
|}.

(** *** Aggregation and tier (lines 105-113) *)

Definition raw (d : FactorSet) (weights : Weights) : num :=
  (d_skillsRisk d * skills weights +
   d_performanceRisk d * performance weights +
   ToNumber (d_networkRisk d) * network weights +
   d_mobilityRisk d * mobility weights +
   d_noticeRisk d * notice weights +
   d_plateauRisk d * plateau weights)%js.

Definition score (d : FactorSet) (weights : Weights) : num :=
  clamp (Math_round (raw d weights)) (of_Z 0) (of_Z 100).

Inductive Tier := Low | Medium | High.

Definition tier (score : num) : Tier :=
  if (score <=? of_Z 30)%js then Low
  else if (score <=? of_Z 60)%js then Medium
  else High.


(** *** Narrative (lines 124-147) *)

(** A template literal: fixed text and interpolated values. *)
Inductive piece :=
| Lit (s : string)
| Hole (v : value).

(** The prompt of [buildDeepseekPrompt]: its fixed text is constant, so the
    prompt is the sequence of values interpolated into it. *)
Record Prompt := {
  pr_fullName : jsstring;
  pr_email : jsstring;
  pr_employmentStatus : option jsstring;
  pr_totalExperience : Q;
  pr_skillProficiencyAvg : Q;
  pr_trainingHours12mo : Q;
  pr_performanceRating : Q;
  pr_linkedinNetworkSize : jsstring;
  pr_willingToRelocate : jsstring;
  pr_preferredWorkModel : option jsstring;
  pr_noticePeriodDays : option Q;
  pr_SkillsRisk : num;
  pr_PerformanceRisk : num;
  pr_NetworkRisk : num;
  pr_MobilityRisk : num;
  pr_NoticeRisk : num;
  pr_PlateauRisk : num
}.

Definition buildDeepseekPrompt (p : Payload) (details : FactorSet) : Prompt := {|
  pr_fullName := fullName p;
  pr_email := email p;
  pr_employmentStatus := employmentStatus p;
  pr_totalExperience := totalExperience p;
  pr_skillProficiencyAvg := skillProficiencyAvg p;
  pr_trainingHours12mo := trainingHours12mo p;
  pr_performanceRating := performanceRating p;
  pr_linkedinNetworkSize := linkedinNetworkSize p;
  pr_willingToRelocate := willingToRelocate p;
  pr_preferredWorkModel := preferredWorkModel p;
  pr_noticePeriodDays := noticePeriodDays p;
  pr_SkillsRisk := Math_round (d_skillsRisk details);
  pr_PerformanceRisk := Math_round (d_performanceRisk details);
  pr_NetworkRisk := Math_round (ToNumber (d_networkRisk details));
  pr_MobilityRisk := Math_round (d_mobilityRisk details);
  pr_NoticeRisk := Math_round (d_noticeRisk details);
  pr_PlateauRisk := Math_round (d_plateauRisk details)
|}.

(** What [deepseekGenerate] resolves to: [{ text }] or
    [{ choices: [{ text }] }]; a choice is given by its [text]. *)
Record Completion := {
  text : option jsstring;
  choices : option (list (option jsstring))
}.

Inductive Generated :=
| GenerateThrows
| GenerateReturns (resp : Completion).

(** [resp.text ?? (resp.choices && resp.choices[0]?.text) ?? ''] *)
Definition rawText (resp : Completion) : jsstring :=
  nullish (text resp)
    (nullish (match choices resp with
              | Some (c :: _) => c
              | Some [] | None => None
              end) []).

(** [rawText.split('\n').slice(0,5).map(s => s.trim()).filter(Boolean)] *)
Definition fallbackRecommendations (rawText : jsstring) : list jsstring :=
  List.filter nonempty (map trim (firstn 5 (split_lines rawText))).

Record Narrative := {
  llmNarrative : json;
  llmRecommendations : json
}.

(** What is thrown, or what an awaited call rejects with: a value with its
    [message] (empty when it has none), the [TypeError] of the runtime on
    reading a property of [undefined] or [null], or [null] or [undefined]
    itself. *)
Inductive Error :=
| Thrown (message : jsstring)
| TypeError (reading : string)
| ThrownNullish.

(** The four [console.error] calls. *)
Inductive LogEntry :=
| DeepseekError
| SupabaseInsertError (message : jsstring)
| FailedToStoreLLMOutput
| Uncaught (err : Error).

Section Narrative.

(** [JSON.parse], a built-in of the runtime: [None] when it throws a
    [SyntaxError]. *)
Variable JSON_parse : jsstring -> option json.

(** The two nested [try] blocks of lines 126-147, with what they log.
    Reading [parsed.narrative] on a parsed [null] throws inside the inner
    [try], before either variable is assigned, and lands in the same
    [catch] as a parse failure. *)
Definition narrate (g : Generated) : Narrative * list LogEntry :=
  match g with
  | GenerateThrows =>
      ({| llmNarrative := JNull; llmRecommendations := JArr [] |},
       [DeepseekError])
  | GenerateReturns resp =>
      let rawText := rawText resp in
      match JSON_parse rawText with
      | Some JNull | None =>
          ({| llmNarrative := JStr rawText;
              llmRecommendations :=
                JArr (map JStr (fallbackRecommendations rawText)) |}, [])
      | Some parsed =>
          ({| llmNarrative :=
                coalesce (prop parsed (str "narrative")) (JStr rawText);
              llmRecommendations :=
                coalesce (prop parsed (str "recommendations")) (JArr []) |},
           [])
      end
  end.

End Narrative.


(** *** Records and responses *)

(** An entry of [explainability]. *)
Record Explanation := {
  factor : string;
  value_ : value;
  text_ : list piece
}.

Definition explainability (p : Payload) (d : FactorSet) : list Explanation :=
  [ {| factor := "Skills relevance";
       value_ := VNum (Math_round (d_skillsRisk d));
       text_ := [Lit "Skill-related risk is ";
                 Hole (VNum (Math_round (d_skillsRisk d))); Lit "."] |};
    {| factor := "Performance";
       value_ := VNum (Math_round (d_performanceRisk d));
       text_ := [Lit "Performance risk ";
                 Hole (VNum (Math_round (d_performanceRisk d))); Lit "."] |};
    {| factor := "Network";
       value_ := d_networkRisk d;
       text_ := [Lit "Network risk "; Hole (d_networkRisk d); Lit "."] |};
    {| factor := "Mobility";
       value_ := VNum (d_mobilityRisk d);
       text_ := [Lit (if jsstring_eqb (willingToRelocate p) (str "Yes")
                      then "Mobility lowers risk."
                      else "Limited mobility increases risk.")] |};
    {| factor := "Notice period";
       value_ := VNum (d_noticeRisk d);
       text_ := [Lit "Notice period risk ";
                 Hole (VNum (d_noticeRisk d)); Lit "."] |};
    {| factor := "Experience plateau";
       value_ := VNum (d_plateauRisk d);
       text_ := [Lit (if strict_eq (d_plateauRisk d) (of_Z 40)
                      then "Possible plateau."
                      else "Balanced tenure.")] |} ].

(** The row inserted into [profiles] (lines 151-171). *)
Record ProfileRow := {
  id : jsstring;
  user_id : jsstring;
  full_name : jsstring;
  email_ : jsstring;
  date_of_birth : option jsstring;
  gender_ : option jsstring;
  employment_status : option jsstring;
  total_experience : Q;
  skill_proficiency_avg : Q;
  training_hours_12mo : Q;
  performance_rating : Q;
  linkedin_network_size : jsstring;
  willing_to_relocate : jsstring;
  preferred_work_model : option jsstring;
  notice_period_days : option Q;
  risk_score : num;
  risk_details : FactorSet;
  llm_explain : json;
  llm_recommendations : json
}.

(** The row inserted into [llm_outputs] (lines 181-189). *)
Record LLMOutputRow := {
  lo_id : jsstring;
  profile_id : jsstring;
  provider : string;
  model : string;
  prompt : Prompt;
  response : Narrative;
  created_at : jsstring
}.

(** The [error] of an error body: a string, or the message the runtime
    gives a [TypeError]. *)
Inductive Message :=
| Msg (s : jsstring)
| TypeErrorMessage (reading : string).

Inductive Body :=
| ErrorBody (error : Message)
| ScoreBody (ok : bool) (score : num) (tier : Tier)
    (explainability : list Explanation) (recommendations : json)
    (profileId : jsstring).

(** [res.status(s).json(b)] *)
Record Response := {
  status : Z;
  body : Body
}.

(** *** The external collaborators *)

Record User := { uid : jsstring }.

(** The [data] of [auth.getUser]: its [user], and its [data] with the
    [user] of that, as line 77 reads it. *)
Record UserData := {
  ud_user : option User;
  ud_data : option (option User)
}.

Record WeightsRow := { weights : option Weights }.

(** The awaited [profiles] insert: it rejects, or resolves to
    [{ data, error }], given by the [id] of the returned row and the
    [message] of the error. *)
Inductive Inserted :=
| InsertThrows (err : Error)
| InsertReturns (data : option jsstring) (error : option jsstring).

(** The awaited [llm_outputs] insert: it rejects (with whatever value: the
    handler does not look at it), or resolves, with or without an error. *)
Inductive Stored :=
| StoreThrows (message : jsstring)
| StoreReturns (error : option jsstring).

Record Request := {
  method : jsstring;
  authorization : option jsstring;
  req_body : Payload
}.

(** The collaborators.  [getUser] and [select_weights] give what the
    awaited calls of lines 75 and 82 resolve to; [getUser_rejects] and
    [select_weights_rejects] say whether the call rejects instead, and with
    what (for the first, the making of the client at line 74 included). *)
Record Env := {
  getUser_rejects : jsstring -> option Error;
  getUser : jsstring -> option UserData * bool;
  select_weights_rejects : option Error;
  select_weights : option WeightsRow;
  deepseekGenerate : Prompt -> Generated;
  uuidv4 : nat -> jsstring;
  insert_profiles : ProfileRow -> Inserted;
  insert_llm_outputs : LLMOutputRow -> Stored;
  toISOString_now : jsstring
}.

(** The same environment with another answer of one collaborator. *)
Definition with_weights (env : Env) (wdata : option WeightsRow) : Env := {|
  getUser_rejects := getUser_rejects env;
  getUser := getUser env;
  select_weights_rejects := select_weights_rejects env;
  select_weights := wdata;
  deepseekGenerate := deepseekGenerate env;
  uuidv4 := uuidv4 env;
  insert_profiles := insert_profiles env;
  insert_llm_outputs := insert_llm_outputs env;
  toISOString_now := toISOString_now env
|}.

(** The same environment, the weights query rejecting. *)
Definition with_rejected_weights (env : Env) (err : Error) : Env := {|
  getUser_rejects := getUser_rejects env;
  getUser := getUser env;
  select_weights_rejects := Some err;
  select_weights := select_weights env;
  deepseekGenerate := deepseekGenerate env;
  uuidv4 := uuidv4 env;
  insert_profiles := insert_profiles env;
  insert_llm_outputs := insert_llm_outputs env;
  toISOString_now := toISOString_now env
|}.

Definition with_llm_outputs (env : Env) (store : LLMOutputRow -> Stored) : Env := {|
  getUser_rejects := getUser_rejects env;
  getUser := getUser env;
  select_weights_rejects := select_weights_rejects env;
  select_weights := select_weights env;
  deepseekGenerate := deepseekGenerate env;
  uuidv4 := uuidv4 env;
  insert_profiles := insert_profiles env;
  insert_llm_outputs := store;
  toISOString_now := toISOString_now env
|}.

Definition with_generate (env : Env) (generate : Prompt -> Generated) : Env := {|
  getUser_rejects := getUser_rejects env;
  getUser := getUser env;
  select_weights_rejects := select_weights_rejects env;
  select_weights := select_weights env;
  deepseekGenerate := generate;
  uuidv4 := uuidv4 env;
  insert_profiles := insert_profiles env;
  insert_llm_outputs := insert_llm_outputs env;
  toISOString_now := toISOString_now env
|}.

(** [wdata?.weights ?? DEFAULT_WEIGHTS] *)
Definition resolveWeights (wdata : option WeightsRow) : Weights :=
  nullish (chain wdata weights) DEFAULT_WEIGHTS.

(** *** Control: a computation logs, issues inserts, and returns or throws *)

Inductive Insertion :=
| IntoProfiles (row : ProfileRow)
| IntoLLMOutputs (row : LLMOutputRow).

Record World := {
  console : list LogEntry;
  writes : list Insertion
}.

Definition M (A : Type) : Type := World -> (A + Error) * World.

Definition ret {A} (a : A) : M A := fun w => (inl a, w).

Definition throw {A} (e : Error) : M A := fun w => (inr e, w).

Definition bind {A B} (c : M A) (k : A -> M B) : M B :=
  fun w => match c w with
           | (inl a, w') => k a w'
           | (inr e, w') => (inr e, w')
           end.

Definition try_catch {A} (c : M A) (h : Error -> M A) : M A :=
  fun w => match c w with
           | (inl a, w') => (inl a, w')
           | (inr e, w') => h e w'
           end.

Definition console_error (l : LogEntry) : M unit :=
  fun w => (inl tt, {| console := console w ++ [l]; writes := writes w |}).

Definition issue (x : Insertion) : M unit :=
  fun w => (inl tt, {| console := console w; writes := writes w ++ [x] |}).

Notation "'let*' x ':=' c 'in' k" := (bind c (fun x => k))
  (at level 10, x name, c at level 100, k at level 200).
Notation "'do' c 'in' k" := (bind c (fun _ => k))
  (at level 10, c at level 100, k at level 200).

(** [o.f] where [o] may be [undefined]. *)
Definition read {A} (o : option A) (f : string) : M A :=
  match o with Some a => ret a | None => throw (TypeError f) end.


Fixpoint log_all (l : list LogEntry) : M unit :=
  match l with
  | [] => ret tt
  | x :: l' => do console_error x in log_all l'
  end.

(** [await call]: the call rejects, or goes on. *)
Definition awaited (rejects : option Error) : M unit :=
  match rejects with Some e => throw e | None => ret tt end.

(** [err.message || 'Server error']: reading [message] of [null] or
    [undefined] throws. *)
Definition message_or_default (err : Error) : M Message :=
  match err with
  | Thrown m => ret (if nonempty m then Msg m else Msg (str "Server error"))
  | TypeError r => ret (TypeErrorMessage r)
  | ThrownNullish => throw (TypeError "message")
  end.

Definition json_response (s : Z) (b : Body) : M Response :=
  ret {| status := s; body := b |}.

(** Lines 69-70: [req.headers.authorization || ''] with its first
    ['Bearer '] removed. *)
Definition token_of (req : Request) : jsstring :=
  replace (nullish (authorization req) []) (str "Bearer ") [].

(** The request passes lines 67-77: it is a POST with a token that the auth
    client resolves, without error, to data carrying both [user] and
    [data.user]. *)
Definition authenticated (req : Request) (env : Env) (user : User) : Prop :=
  method req = str "POST"
  /\ nonempty (token_of req) = true
  /\ getUser_rejects env (token_of req) = None
  /\ exists ud caller,
       getUser env (token_of req) = (Some ud, false)
       /\ ud_user ud = Some caller
       /\ ud_data ud = Some (Some user).

(** A response without its recommendations. *)
Definition redact (r : Response) : Response :=
  match body r with
  | ScoreBody ok score tier explainability _ profileId =>
      {| status := status r;
         body := ScoreBody ok score tier explainability JNull profileId |}
  | ErrorBody _ => r
  end.

Section Handler.

Variable JSON_parse : jsstring -> option json.

(** *** [handler] (lines 66-200) *)
Definition handler (req : Request) (env : Env) : M Response :=
  if negb (jsstring_eqb (method req) (str "POST"))
  then json_response 405 (ErrorBody (Msg (str "Method not allowed")))
  else
  let token := token_of req in
  if negb (nonempty token)
  then json_response 401 (ErrorBody (Msg (str "Missing token")))
  else
  try_catch
    (do awaited (getUser_rejects env token) in
     let '(userData, userErr) := getUser env token in
     if userErr || negb (has (chain userData ud_user))
     then json_response 401 (ErrorBody (Msg (str "Invalid token")))
     else
     let* user := read (chain userData ud_data) "user" in
     let p := req_body req in
     do awaited (select_weights_rejects env) in
     let wdata := select_weights env in
     let weights := resolveWeights wdata in
     let details := factors p in
     let score := score details weights in
     let tier := tier score in
     let explainability := explainability p details in
     let prompt := buildDeepseekPrompt p details in
     let '(llm, logged) := narrate JSON_parse (deepseekGenerate env prompt) in
     do log_all logged in
     let profileId := uuidv4 env 0 in
     let* user := read user "id" in
     let insert := {|
       id := profileId;
       user_id := uid user;
       full_name := fullName p;
       email_ := email p;
       date_of_birth := dateOfBirth p;
       gender_ := gender p;
       employment_status := employmentStatus p;
       total_experience := totalExperience p;
       skill_proficiency_avg := skillProficiencyAvg p;
       training_hours_12mo := trainingHours12mo p;
       performance_rating := performanceRating p;
       linkedin_network_size := linkedinNetworkSize p;
       willing_to_relocate := willingToRelocate p;
       preferred_work_model := preferredWorkModel p;
       notice_period_days := noticePeriodDays p;
       risk_score := score;
       risk_details := details;
       llm_explain := llmNarrative llm;
       llm_recommendations := llmRecommendations llm
     |} in
     do issue (IntoProfiles insert) in
     match insert_profiles env insert with
     | InsertThrows err => throw err
     | InsertReturns _ (Some m) =>
         do console_error (SupabaseInsertError m) in
         json_response 500 (ErrorBody (Msg m))
     | InsertReturns data None =>
         let has_length :=
           truthy (prop (llmRecommendations llm) (str "length")) in
         do (if truthy (llmNarrative llm)
                || (truthy (llmRecommendations llm) && has_length)
             then
               try_catch
                 (let row := {|
                    lo_id := uuidv4 env 1;
                    profile_id := profileId;
                    provider := "deepseek";
                    model := "deepseek-2025-small";
                    prompt := prompt;
                    response := llm;
                    created_at := toISOString_now env
                  |} in
                  do issue (IntoLLMOutputs row) in
                  match insert_llm_outputs env row with
                  | StoreThrows m => throw (Thrown m)
                  | StoreReturns _ => ret tt
                  end)
                 (fun e => console_error FailedToStoreLLMOutput)
             else ret tt) in
         let* data_id := read data "id" in
         json_response 200
           (ScoreBody true score tier explainability
              (if has_length then llmRecommendations llm
               else JArr [JStr (str "See dashboard for recommended actions.")])
              data_id)
     end)
    (fun err =>
       do console_error (Uncaught err) in
       let* message := message_or_default err in
       json_response 500 (ErrorBody message)).

(** A request served from an empty console and store. *)
Definition serve (req : Request) (env : Env) : (Response + Error) * World :=
  handler req env {| console := []; writes := [] |}.

End Handler.

End Score.

(** ** The arithmetic of the handler on binary64 values

    A number of the handler is an IEEE 754 binary64 value; [+], [-], [*] and
    [/] round to nearest, ties to even.  The operations are those of the
    Standard Library's specification of binary floating point, at precision
    53 and maximal exponent 1024. *)
Module Double.

Definition prec : Z := 53.
Definition emax : Z := 1024.

Definition double := spec_float.

Definition add (x y : double) : double := SFadd prec emax x y.
Definition sub (x y : double) : double := SFsub prec emax x y.
Definition mul (x y : double) : double := SFmul prec emax x y.
Definition div (x y : double) : double := SFdiv prec emax x y.

Declare Scope double_scope.
Delimit Scope double_scope with double.
Bind Scope double_scope with double.
Infix "+" := add : double_scope.
Infix "-" := sub : double_scope.
Infix "*" := mul : double_scope.
Infix "/" := div : double_scope.

(** The double nearest to an integer; the integer itself up to 2^53. *)
Definition of_Z (z : Z) : double := binary_normalize prec emax z 0 false.

(** The double nearest to a decimal literal of the source, given as the
    fraction it denotes: numerator and denominator are doubles, and the
    division rounds once. *)
Definition decimal (q : Q) : double :=
  (of_Z (Qnum q) / of_Z (Z.pos (Qden q)))%double.

(** The rational a finite double is; [None] for NaN and the infinities. *)
Definition value (x : double) : option Q :=
  match x with
  | S754_zero _ => Some 0%Q
  | S754_finite s m e =>
      Some ((if s then -1 else 1) * inject_Z (Z.pos m) * 2 ^ e)%Q
  | S754_infinity _ | S754_nan => None
  end.

(** Lines 86-87: [100 - (x/5)*100]. *)
Definition scaled (x : double) : double :=
  (of_Z 100 - (x / of_Z 5) * of_Z 100)%double.

Definition skillsRisk (skillProficiencyAvg : double) : double :=
  scaled skillProficiencyAvg.

Definition performanceRisk (performanceRating : double) : double :=
  scaled performanceRating.

Record FactorSet := {
  d_skillsRisk : double;
  d_performanceRisk : double;
  d_networkRisk : double;
  d_mobilityRisk : double;
  d_noticeRisk : double;
  d_plateauRisk : double
}.

Record Weights := {
  skills : double;
  performance : double;
  network : double;
  mobility : double;
  notice : double;
  plateau : double
}.

Definition DEFAULT_WEIGHTS : Weights := {|
  skills := decimal 0.28;
  performance := decimal 0.22;
  network := decimal 0.18;
  mobility := decimal 0.12;
  notice := decimal 0.12;
  plateau := decimal 0.08
|}.

(** Lines 105-110: six products, added from left to right. *)
Definition raw (d : FactorSet) (weights : Weights) : double :=
  (d_skillsRisk d * skills weights +
   d_performanceRisk d * performance weights +
   d_networkRisk d * network weights +
   d_mobilityRisk d * mobility weights +
   d_noticeRisk d * notice weights +
   d_plateauRisk d * plateau weights)%double.

(** What [Math.round] returns: NaN, an infinity or an integer (the sign of
    a zero is dropped: [clamp] returns [+0] for both). *)
Inductive integral :=
| INaN
| IInf (negative : bool)
| IInt (z : Z).

(** [Math.round]: the integer nearest to the value, ties towards plus
    infinity; a double that is an integer already is returned as it is. *)
Definition Math_round (x : double) : integral :=
  match x with
  | S754_nan => INaN
  | S754_infinity s => IInf s
  | S754_zero _ | S754_finite _ _ _ =>
      match value x with
      | Some q => IInt (Qfloor (q + (1 # 2)))
      | None => INaN
      end
  end.

Definition Math_min (a b : integral) : integral :=
  match a, b with
  | INaN, _ | _, INaN => INaN
  | IInf true, _ | _, IInf true => IInf true
  | IInf false, y => y
  | x, IInf false => x
  | IInt x, IInt y => IInt (Z.min x y)
  end.

Definition Math_max (a b : integral) : integral :=
  match a, b with
  | INaN, _ | _, INaN => INaN
  | IInf false, _ | _, IInf false => IInf false
  | IInf true, y => y
  | x, IInf true => x
  | IInt x, IInt y => IInt (Z.max x y)
  end.

(** Line 22. *)
Definition clamp (v a b : integral) : integral := Math_max a (Math_min b v).

(** Line 112. *)
Definition score (d : FactorSet) (weights : Weights) : integral :=
  clamp (Math_round (raw d weights)) (IInt 0) (IInt 100).

End Double.

(** ** The specification's wording, for comparison with the code *)
Module Spec.
Import JS Score.

(** "raw = sum of factor_i x weight_i over the six paired terms" *)
Fixpoint dot_product (terms : list (Q * Q)) : Q :=
  match terms with
  | [] => 0
  | (f, w) :: rest => f * w + dot_product rest
  end.

(** The same sum over binary64 values, each product and each partial sum
    rounded. *)
Definition rounded_dot_product
    (terms : list (Double.double * Double.double)) : Double.double :=
  match terms with
  | [] => Double.of_Z 0
  | (f, w) :: rest =>
      fold_left (fun acc '(f, w) => Double.add acc (Double.mul f w)) rest
        (Double.mul f w)
  end.

(** "the exact dot product of factors and weights", of the rationals that
    finite doubles are. *)
Fixpoint exact_dot_product
    (terms : list (Double.double * Double.double)) : option Q :=
  match terms with
  | [] => Some 0%Q
  | (f, w) :: rest =>
      match Double.value f, Double.value w, exact_dot_product rest with
      | Some x, Some y, Some r => Some (x * y + r)%Q
      | _, _, _ => None
      end
  end.

(** The bucket table as the specification spells it. *)
Definition networkTable : list (jsstring * Z) :=
  [ (str "<500", 70%Z);
    (str "500" ++ 8211%N :: str "1,000", 50%Z);
    (str "1,001" ++ 8211%N :: str "5,000", 30%Z);
    (str ">5,000", 10%Z) ].

Fixpoint lookup (table : list (jsstring * Z)) (k : jsstring) : option Z :=
  match table with
  | [] => None
  | (k', v) :: rest => if jsstring_eqb k k' then Some v else lookup rest k
  end.

(** "lookup in a fixed bucket table; unrecognized bucket -> 60" *)
Definition networkRisk (size : jsstring) : Z :=
  nullish (lookup networkTable size) 60%Z.



(** "the first 5 non-empty trimmed lines" of a text *)
Definition first5_nonempty_trimmed (rawText : jsstring) : list jsstring :=
  firstn 5 (List.filter nonempty (map trim (split_lines rawText))).

End Spec.

(** ** Sample inputs *)
Module Sample.
Import JS Score.

Definition profile (skill rating : Q) (size : jsstring)
    (days : option Q) : Payload := {|
  fullName := str "Ada";
  email := str "ada@example.org";
  dateOfBirth := None;
  gender := None;
  employmentStatus := Some (str "Employed");
  totalExperience := 5;
  skillProficiencyAvg := skill;
  trainingHours12mo := 10;
  performanceRating := rating;
  linkedinNetworkSize := size;
  willingToRelocate := str "Yes";
  preferredWorkModel := None;
  noticePeriodDays := days
|}.

(** A source literal written with apostrophes for its quotation marks. *)
Definition quoted (s : string) : jsstring :=
  map (fun c => if N.eqb c 39 then 34%N else c) (str s).

(** Five blank lines, then two lines of advice. *)
Definition blank_first : jsstring :=
  [LF; LF; LF; LF; LF] ++ str "Learn a new skill" ++ [LF]
  ++ str "Grow your network".

(** A well-formed answer of the service that carries six recommendations. *)
Definition six_text : jsstring :=
  quoted "{'narrative':'x','recommendations':['a','b','c','d','e','f']}".

Definition six_json : json :=
  JObj [ (str "narrative", JStr (str "x"));
         (str "recommendations",
          JArr [JStr (str "a"); JStr (str "b"); JStr (str "c");
                JStr (str "d"); JStr (str "e"); JStr (str "f")]) ].

(** [JSON.parse] restricted to the texts used below. *)
Definition parse (s : jsstring) : option json :=
  if jsstring_eqb s six_text then Some six_json else None.

Definition answer (t : jsstring) : Generated :=
  GenerateReturns {| text := Some t; choices := None |}.

(** An environment in which every collaborator succeeds: the auth client
    resolves the caller both as [user] and as [data.user]. *)
Definition env (g : Generated) (primary : Inserted) (secondary : Stored) : Env := {|
  getUser_rejects := fun _ => None;
  getUser := fun _ =>
    (Some {| ud_user := Some {| uid := str "u1" |};
             ud_data := Some (Some {| uid := str "u1" |}) |}, false);
  select_weights_rejects := None;
  select_weights := None;
  deepseekGenerate := fun _ => g;
  uuidv4 := fun n => str "id-" ++ [N.of_nat n + 48]%N;
  insert_profiles := fun _ => primary;
  insert_llm_outputs := fun _ => secondary;
  toISOString_now := str "2025-01-01T00:00:00.000Z"
|}.

Definition inserted : Inserted := InsertReturns (Some (str "p1")) None.

Definition stored : Stored := StoreReturns None.

Definition request (p : Payload) : Request := {|
  method := str "POST";
  authorization := Some (str "Bearer token");
  req_body := p
|}.

End Sample.

(** ** More of the string library, and the order of tiers *)
Module Text.
Import JS Score.

(** [s.split(sep)] for a separator of one code unit. *)
Fixpoint split (sep : N) (s : jsstring) : list jsstring :=
  match s with
  | [] => [[]]
  | c :: s' =>
      if N.eqb c sep then [] :: split sep s'
      else match split sep s' with
           | l :: ls => (c :: l) :: ls
           | [] => [[c]]
           end
  end.

(** [parts.join(sep)] for a separator of one code unit. *)
Fixpoint join (sep : N) (parts : list jsstring) : jsstring :=
  match parts with
  | [] => []
  | [x] => x
  | x :: rest => x ++ sep :: join sep rest
  end.

(** [s.includes(pat)] on strings. *)
Fixpoint includes (s pat : jsstring) : bool :=
  starts_with pat s
  || match s with
     | [] => false
     | _ :: s' => includes s' pat
     end.

(** The first code unit, if any, is not white space. *)
Definition starts_clean (s : jsstring) : bool :=
  match s with
  | [] => true
  | c :: _ => negb (is_space c)
  end.


End Text.

(** ** The admin check: [src/pages/api/check-admin.ts]

    The file is the body of a handler; [token] and [res] come from the part
    around it.  Every path answers with status 200, so the body is embedded
    as the [isAdmin] it answers. *)
Module CheckAdmin.
Import JS Score.

(** The [user] of [auth.getUser]: its [id] and its [email]. *)
Record AuthUser := {
  au_id : jsstring;
  au_email : option jsstring
}.

(** A row of [app_users]; [is_admin] is whatever value the column holds,
    [JNull] when it has none. *)
Record AppUser := { is_admin : json }.

Record AdminEnv := {
  auth_getUser : option (option AuthUser);
  select_app_user : jsstring -> option AppUser;
  ADMIN_EMAILS : option jsstring
}.

Definition COMMA : N := 44.

(** [(process.env.ADMIN_EMAILS ?? '').split(',').map(s => s.trim())
    .filter(Boolean)] *)
Definition adminEmails (env : AdminEnv) : list jsstring :=
  List.filter nonempty
    (map trim (Text.split COMMA (nullish (ADMIN_EMAILS env) []))).

(** [list.includes(x)] on an array of strings. *)
Definition array_includes (l : list jsstring) (x : jsstring) : bool :=
  existsb (jsstring_eqb x) l.

(** [v === true] *)
Definition is_true (v : json) : bool :=
  match v with JBool true => true | _ => false end.

(** Lines 1-20: the [isAdmin] of the response. *)
Definition checkAdmin (env : AdminEnv) : bool :=
  match chain (auth_getUser env) (fun user => user) with
  | None => false
  | Some user =>
      let appUser := select_app_user env (au_id user) in
      array_includes (adminEmails env) (nullish (au_email user) [])
      || is_true (nullish (chain appUser (fun a => Some (is_admin a))) JNull)
  end.

End CheckAdmin.

(** ** What a run of the handler leaves behind *)
Module Run.
Import JS Score.

(** The world before the request: an empty console, no insert issued. *)
Definition nothing_done : World := {| console := []; writes := [] |}.

(** The object [insert] of lines 151-171, for the caller [user] and the
    narrative [llm]. *)
Definition profileRow (req : Request) (env : Env) (user : User)
    (llm : Narrative) : ProfileRow :=
  let p := req_body req in {|
  id := uuidv4 env 0;
  user_id := uid user;
  full_name := fullName p;
  email_ := email p;
  date_of_birth := dateOfBirth p;
  gender_ := gender p;
  employment_status := employmentStatus p;
  total_experience := totalExperience p;
  skill_proficiency_avg := skillProficiencyAvg p;
  training_hours_12mo := trainingHours12mo p;
  performance_rating := performanceRating p;
  linkedin_network_size := linkedinNetworkSize p;
  willing_to_relocate := willingToRelocate p;
  preferred_work_model := preferredWorkModel p;
  notice_period_days := noticePeriodDays p;
  risk_score := score (factors p) (resolveWeights (select_weights env));
  risk_details := factors p;
  llm_explain := llmNarrative llm;
  llm_recommendations := llmRecommendations llm
|}.

(** The object inserted into [llm_outputs] at lines 181-189. *)
Definition llmOutputRow (req : Request) (env : Env)
    (llm : Narrative) : LLMOutputRow := {|
  lo_id := uuidv4 env 1;
  profile_id := uuidv4 env 0;
  provider := "deepseek";
  model := "deepseek-2025-small";
  prompt := buildDeepseekPrompt (req_body req) (factors (req_body req));
  response := llm;
  created_at := toISOString_now env
|}.

(** The test of line 179. *)
Definition worthStoring (llm : Narrative) : bool :=
  truthy (llmNarrative llm)
  || (truthy (llmRecommendations llm)
      && truthy (prop (llmRecommendations llm) (str "length"))).

(** The stand-in of line 195. *)
Definition placeholder : json :=
  JArr [JStr (str "See dashboard for recommended actions.")].

End Run.

Import JS Score.
Local Open Scope Q_scope.

(** ** Arithmetic of the embedding *)

Lemma Qle_bool_inject_Z (a b : Z) :
  Qle_bool (inject_Z a) (inject_Z b) = (a <=? b)%Z.
Proof. unfold Qle_bool; simpl. now rewrite !Z.mul_1_r. Qed.

Lemma Math_min_of_Z (a b : Z) :
  Math_min (of_Z a) (of_Z b) = of_Z (Z.min a b).
Proof.
  unfold Math_min, of_Z. rewrite Qle_bool_inject_Z.
  destruct (Z.leb_spec a b); f_equal; f_equal; lia.
Qed.

Lemma Math_max_of_Z (a b : Z) :
  Math_max (of_Z a) (of_Z b) = of_Z (Z.max a b).
Proof.
  unfold Math_max, of_Z. rewrite Qle_bool_inject_Z.
  destruct (Z.leb_spec a b); f_equal; f_equal; lia.
Qed.

Lemma clamp_of_Z (z : Z) :
  clamp (of_Z z) (of_Z 0) (of_Z 100) = of_Z (Z.max 0 (Z.min 100 z)).
Proof. unfold clamp. now rewrite Math_min_of_Z, Math_max_of_Z. Qed.

(** [Qfloor (x + 1/2)] is an integer nearest to [x]. *)
Lemma round_nearest (x : Q) :
  inject_Z (Qfloor (x + (1 # 2))) - (1 # 2) <= x
  /\ x < inject_Z (Qfloor (x + (1 # 2))) + (1 # 2).
Proof.
  pose proof (Qfloor_le (x + (1 # 2))) as Hle.
  pose proof (Qlt_floor (x + (1 # 2))) as Hlt.
  rewrite inject_Z_plus in Hlt.
  change (inject_Z 1) with 1 in Hlt.
  split; lra.
Qed.

(** ** Score aggregation *)

Lemma clamp_integer (z : Z) :
  Double.clamp (Double.IInt z) (Double.IInt 0) (Double.IInt 100)
  = Double.IInt (Z.max 0 (Z.min 100 z)).
Proof. reflexivity. Qed.

(** [Math.round] of a finite double is an integer nearest to it. *)
Lemma Math_round_finite (x : Double.double) (q : Q) :
  Double.value x = Some q ->
  Double.Math_round x = Double.IInt (Qfloor (q + (1 # 2))).
Proof.
  destruct x; cbn [Double.value Double.Math_round]; try discriminate;
    intros H; rewrite ?H; injection H as H; rewrite H; reflexivity.
Qed.

(** C1 as stated fails.  For a proficiency of 2.5, a rating of 3.75 and the
    default weights the factors are 50, 25, 30, 10, 10 and 40; their exact
    dot product with the weights is above 30.5 and rounds to 31, but the raw
    score of the code, where each product and each partial sum is rounded,
    is below 30.5, and the score is 30.  For a proficiency of -1e308 and a
    rating of 1e308 the two scaled factors are the two infinities, the raw
    score is NaN and so is the score, which is then not in [0,100]. *)
Lemma raw_is_not_the_exact_dot_product :
  let w := Double.DEFAULT_WEIGHTS in
  let d := {| Double.d_skillsRisk := Double.skillsRisk (Double.decimal 2.5);
              Double.d_performanceRisk :=
                Double.performanceRisk (Double.decimal 3.75);
              Double.d_networkRisk := Double.of_Z 30;
              Double.d_mobilityRisk := Double.of_Z 10;
              Double.d_noticeRisk := Double.of_Z 10;
              Double.d_plateauRisk := Double.of_Z 40 |} in
  let huge := {| Double.d_skillsRisk :=
                   Double.skillsRisk (Double.of_Z (- 10 ^ 308));
                 Double.d_performanceRisk :=
                   Double.performanceRisk (Double.of_Z (10 ^ 308));
                 Double.d_networkRisk := Double.of_Z 30;
                 Double.d_mobilityRisk := Double.of_Z 10;
                 Double.d_noticeRisk := Double.of_Z 10;
                 Double.d_plateauRisk := Double.of_Z 40 |} in
  (Double.d_skillsRisk d = Double.of_Z 50
   /\ Double.d_performanceRisk d = Double.of_Z 25)
  /\ (exists exact r : Q,
        Spec.exact_dot_product
          [ (Double.d_skillsRisk d, Double.skills w);
            (Double.d_performanceRisk d, Double.performance w);
            (Double.d_networkRisk d, Double.network w);
            (Double.d_mobilityRisk d, Double.mobility w);
            (Double.d_noticeRisk d, Double.notice w);
            (Double.d_plateauRisk d, Double.plateau w) ] = Some exact
        /\ Double.value (Double.raw d w) = Some r
        /\ r < 30.5 /\ 30.5 < exact
        /\ Qfloor (exact + (1 # 2)) = 31%Z
        /\ Double.score d w = Double.IInt 30)
  /\ Spec.dot_product
       [ (50, 0.28); (25, 0.22); (30, 0.18); (10, 0.12); (10, 0.12);
         (40, 0.08) ] == 30.5
  /\ (Double.d_skillsRisk huge = S754_infinity false
      /\ Double.d_performanceRisk huge = S754_infinity true
      /\ Double.raw huge w = S754_nan
      /\ Double.score huge w = Double.INaN).
Proof.
  split; [split; vm_compute; reflexivity|].
  split.
  - eexists _, _.
    split; [vm_compute; reflexivity|].
    split; [vm_compute; reflexivity|].
    repeat split; vm_compute; reflexivity.
  - split; [vm_compute; reflexivity|].
    repeat split; vm_compute; reflexivity.
Qed.

(** C1, amended: for every factor set and weight vector the raw score is the
    sum of the six products factor by weight computed on doubles from left
    to right, each product and each partial sum rounded; the score is that
    raw score rounded to a nearest integer, ties upwards, and clamped to
    [0,100]: it is NaN when the raw score is NaN, 100 and 0 at the
    infinities, and an integer between 0 and 100 whenever the raw score is
    not NaN. *)
Theorem score_is_clamped_rounded_raw (d : Double.FactorSet)
    (w : Double.Weights) :
  let r := Double.raw d w in
  r = Spec.rounded_dot_product
        [ (Double.d_skillsRisk d, Double.skills w);
          (Double.d_performanceRisk d, Double.performance w);
          (Double.d_networkRisk d, Double.network w);
          (Double.d_mobilityRisk d, Double.mobility w);
          (Double.d_noticeRisk d, Double.notice w);
          (Double.d_plateauRisk d, Double.plateau w) ]
  /\ (forall q : Q, Double.value r = Some q ->
        exists z : Z,
          (inject_Z z - (1 # 2) <= q /\ q < inject_Z z + (1 # 2))
          /\ Double.score d w = Double.IInt (Z.max 0 (Z.min 100 z)))
  /\ (r = S754_infinity false -> Double.score d w = Double.IInt 100)
  /\ (r = S754_infinity true -> Double.score d w = Double.IInt 0)
  /\ (r = S754_nan -> Double.score d w = Double.INaN)
  /\ (r <> S754_nan ->
        exists z : Z, Double.score d w = Double.IInt z /\ (0 <= z <= 100)%Z).
Proof.
  intros r. split; [reflexivity|].
  unfold Double.score. fold r. clearbody r.
  split; [|split; [|split; [|split]]].
  - intros q Hq. exists (Qfloor (q + (1 # 2))).
    split; [apply round_nearest|].
    rewrite (Math_round_finite r q Hq). apply clamp_integer.
  - intros ->. reflexivity.
  - intros ->. reflexivity.
  - intros ->. reflexivity.
  - intros Hr. destruct r as [s|[|]| |s m e]; try congruence.
    + eexists. split; [reflexivity|]. simpl. lia.
    + eexists. split; [reflexivity|]. lia.
    + eexists. split; [reflexivity|]. lia.
    + eexists. split; [simpl; apply clamp_integer|]. lia.
Qed.

Lemma score_is_clamped_rounded_raw_witness :
  let d := {| Double.d_skillsRisk := Double.of_Z 50;
              Double.d_performanceRisk := Double.of_Z 25;
              Double.d_networkRisk := Double.of_Z 30;
              Double.d_mobilityRisk := Double.of_Z 10;
              Double.d_noticeRisk := Double.of_Z 10;
              Double.d_plateauRisk := Double.of_Z 40 |} in
  Double.raw d Double.DEFAULT_WEIGHTS <> S754_nan
  /\ exists z : Z,
       Double.score d Double.DEFAULT_WEIGHTS = Double.IInt z
       /\ (0 <= z <= 100)%Z.
Proof.
  intros d.
  assert (H : Double.raw d Double.DEFAULT_WEIGHTS <> S754_nan)
    by (vm_compute; discriminate).
  split; [exact H|].
  exact (proj2 (proj2 (proj2 (proj2 (proj2
    (score_is_clamped_rounded_raw d Double.DEFAULT_WEIGHTS))))) H).
Defined.

(** With a bucket that names an inherited member the network factor is not
    a number and the score is NaN, which falls through both tier tests. *)
Lemma score_of_inherited_bucket :
  score (factors (Sample.profile 5 5 (str "toString") None)) DEFAULT_WEIGHTS
  = NaN
  /\ tier NaN = High.
Proof. split; reflexivity. Qed.

(** The end-to-end example of the specification, with the bucket spelled as
    the code spells it: every factor at its minimum, score 6, tier Low. *)
Lemma minimum_risk_profile :
  score (factors (Sample.profile 5 5 (str "> 5,000") (Some 0))) DEFAULT_WEIGHTS
  = of_Z 6
  /\ tier (of_Z 6) = Low.
Proof. split; reflexivity. Qed.

(** C2: the tier of an integer score is Low up to 30, Medium from 31 to 60
    and High from 61 on. *)
Theorem tier_thresholds (z : Z) :
  ((z <= 30)%Z -> tier (of_Z z) = Low)
  /\ ((31 <= z <= 60)%Z -> tier (of_Z z) = Medium)
  /\ ((61 <= z)%Z -> tier (of_Z z) = High).
Proof.
  unfold tier, lte, of_Z. rewrite !Qle_bool_inject_Z.
  repeat split; intros H;
    destruct (Z.leb_spec z 30); destruct (Z.leb_spec z 60);
    try reflexivity; lia.
Qed.

Lemma tier_thresholds_witness :
  tier (of_Z 30) = Low /\ tier (of_Z 31) = Medium
  /\ tier (of_Z 60) = Medium /\ tier (of_Z 61) = High.
Proof.
  split; [apply (proj1 (tier_thresholds 30)); lia|].
  split; [apply (proj1 (proj2 (tier_thresholds 31))); lia|].
  split; [apply (proj1 (proj2 (tier_thresholds 60))); lia|].
  apply (proj2 (proj2 (tier_thresholds 61))); lia.
Defined.

(** ** Factors *)

Lemma networkMap_miss (k : jsstring) :
  k <> str "< 500" ->
  k <> str "500" ++ 8211%N :: str "1,000" ->
  k <> str "1,001" ++ 8211%N :: str "5,000" ->
  k <> str "> 5,000" ->
  networkMap !! k = None.
Proof.
  intros H1 H2 H3 H4. unfold networkMap.
  rewrite !lookup_insert_ne by congruence.
  now apply lookup_singleton_ne.
Qed.

(** C3 as stated fails: the bucket spelled without a space is not a key of
    [networkMap], so it gets the default 60 where the specification's table
    gives 70. *)
Lemma networkRisk_unspaced_bucket :
  networkRisk (Sample.profile 5 5 (str "<500") None) = VNum (of_Z 60)
  /\ Spec.networkRisk (str "<500") = 70%Z.
Proof. split; vm_compute; reflexivity. Qed.

(** A bucket that names a member inherited from [Object.prototype] does not
    get the default either. *)
Lemma networkRisk_inherited_member :
  networkRisk (Sample.profile 5 5 (str "toString") None)
  = VInherited (str "toString").
Proof. vm_compute; reflexivity. Qed.

(** C3, amended: [networkRisk] is the lookup in the table whose keys are
    written with a space after the comparison sign, and is 60 for any other
    string that does not name a member every object inherits. *)
Theorem networkRisk_table (p : Payload) :
  let k := linkedinNetworkSize p in
  (k = str "< 500" -> networkRisk p = VNum (of_Z 70))
  /\ (k = str "500" ++ 8211%N :: str "1,000" -> networkRisk p = VNum (of_Z 50))
  /\ (k = str "1,001" ++ 8211%N :: str "5,000" ->
      networkRisk p = VNum (of_Z 30))
  /\ (k = str "> 5,000" -> networkRisk p = VNum (of_Z 10))
  /\ (k <> str "< 500" ->
      k <> str "500" ++ 8211%N :: str "1,000" ->
      k <> str "1,001" ++ 8211%N :: str "5,000" ->
      k <> str "> 5,000" ->
      inherited k = false ->
      networkRisk p = VNum (of_Z 60)).
Proof.
  intros k. unfold networkRisk. fold k.
  repeat split; try (intros ->; vm_compute; reflexivity).
  intros H1 H2 H3 H4 Hin. unfold get.
  rewrite networkMap_miss by assumption. now rewrite Hin.
Qed.

Lemma networkRisk_table_witness :
  networkRisk (Sample.profile 5 5 (str "> 5,000") None) = VNum (of_Z 10)
  /\ networkRisk (Sample.profile 5 5 (str "unknown") None) = VNum (of_Z 60).
Proof.
  split.
  - apply (networkRisk_table (Sample.profile 5 5 (str "> 5,000") None)).
    reflexivity.
  - apply (networkRisk_table (Sample.profile 5 5 (str "unknown") None));
      vm_compute; congruence.
Defined.

Lemma ge_of_Z (n : Q) (z : Z) :
  (Fin n >=? of_Z z)%js = true <-> inject_Z z <= n.
Proof. unfold gte, lte, of_Z. apply Qle_bool_iff. Qed.

Lemma ge_of_Z_false (n : Q) (z : Z) :
  (Fin n >=? of_Z z)%js = false <-> n < inject_Z z.
Proof.
  rewrite <- not_true_iff_false, ge_of_Z. split.
  - apply Qnot_le_lt.
  - apply Qlt_not_le.
Qed.

Lemma noticeRisk_cases (p : Payload) (n : Q) :
  noticeDays p = Fin n ->
  (inject_Z 90 <= n /\ noticeRisk p = of_Z 80)
  \/ (inject_Z 60 <= n < inject_Z 90 /\ noticeRisk p = of_Z 70)
  \/ (inject_Z 30 <= n < inject_Z 60 /\ noticeRisk p = of_Z 50)
  \/ (inject_Z 15 <= n < inject_Z 30 /\ noticeRisk p = of_Z 30)
  \/ (inject_Z 7 <= n < inject_Z 15 /\ noticeRisk p = of_Z 20)
  \/ (n < inject_Z 7 /\ noticeRisk p = of_Z 10).
Proof.
  intros Hn. unfold noticeRisk. rewrite Hn.
  destruct (Fin n >=? of_Z 90)%js eqn:H90;
    [apply ge_of_Z in H90; tauto | apply ge_of_Z_false in H90].
  destruct (Fin n >=? of_Z 60)%js eqn:H60;
    [apply ge_of_Z in H60; tauto | apply ge_of_Z_false in H60].
  destruct (Fin n >=? of_Z 30)%js eqn:H30;
    [apply ge_of_Z in H30; tauto | apply ge_of_Z_false in H30].
  destruct (Fin n >=? of_Z 15)%js eqn:H15;
    [apply ge_of_Z in H15; tauto | apply ge_of_Z_false in H15].
  destruct (Fin n >=? of_Z 7)%js eqn:H7;
    [apply ge_of_Z in H7; tauto | apply ge_of_Z_false in H7].
  tauto.
Qed.

(** C4: [noticeRisk] is the step function of the notice period, thresholds
    tried from the highest down; a missing notice period counts as 30 days. *)
Theorem noticeRisk_steps (p : Payload) :
  let n := nullish (noticePeriodDays p) 30 in
  (90 <= n -> noticeRisk p = of_Z 80)
  /\ (60 <= n < 90 -> noticeRisk p = of_Z 70)
  /\ (30 <= n < 60 -> noticeRisk p = of_Z 50)
  /\ (15 <= n < 30 -> noticeRisk p = of_Z 30)
  /\ (7 <= n < 15 -> noticeRisk p = of_Z 20)
  /\ (n < 7 -> noticeRisk p = of_Z 10)
  /\ (noticePeriodDays p = None -> noticeRisk p = of_Z 50)
  /\ (noticePeriodDays p = Some 89 -> noticeRisk p = of_Z 70)
  /\ (noticePeriodDays p = Some 90 -> noticeRisk p = of_Z 80)
  /\ (noticePeriodDays p = Some 0 -> noticeRisk p = of_Z 10).
Proof.
  intros n.
  assert (Hn : noticeDays p = Fin n) by reflexivity.
  pose proof (noticeRisk_cases p n Hn) as Hc.
  change (inject_Z 90) with 90 in Hc. change (inject_Z 60) with 60 in Hc.
  change (inject_Z 30) with 30 in Hc. change (inject_Z 15) with 15 in Hc.
  change (inject_Z 7) with 7 in Hc.
  repeat split; intros H;
    try (unfold n in *; rewrite H in *; simpl in Hc);
    destruct Hc as [[? ?]|[[? ?]|[[? ?]|[[? ?]|[[? ?]|[? ?]]]]]];
    try assumption; exfalso; lra.
Qed.

Lemma noticeRisk_steps_witness :
  noticeRisk (Sample.profile 5 5 (str "< 500") (Some 89)) = of_Z 70
  /\ noticeRisk (Sample.profile 5 5 (str "< 500") (Some 90)) = of_Z 80
  /\ noticeRisk (Sample.profile 5 5 (str "< 500") (Some 0)) = of_Z 10
  /\ noticeRisk (Sample.profile 5 5 (str "< 500") None) = of_Z 50
  /\ noticeRisk (Sample.profile 5 5 (str "< 500") (Some 20)) = of_Z 30
  /\ noticeRisk (Sample.profile 5 5 (str "< 500") (Some 7)) = of_Z 20.
Proof.
  split; [|split; [|split; [|split; [|split]]]].
  - apply (proj1 (proj2
      (noticeRisk_steps (Sample.profile 5 5 (str "< 500") (Some 89))))).
    simpl; lra.
  - apply (proj1
      (noticeRisk_steps (Sample.profile 5 5 (str "< 500") (Some 90)))).
    simpl; lra.
  - apply (proj1 (proj2 (proj2 (proj2 (proj2 (proj2
      (noticeRisk_steps (Sample.profile 5 5 (str "< 500") (Some 0))))))))).
    simpl; lra.
  - apply (proj1 (proj2 (proj2 (proj2 (proj2 (proj2 (proj2
      (noticeRisk_steps (Sample.profile 5 5 (str "< 500") None)))))))));
      reflexivity.
  - apply (proj1 (proj2 (proj2 (proj2
      (noticeRisk_steps (Sample.profile 5 5 (str "< 500") (Some 20))))))).
    simpl; lra.
  - apply (proj1 (proj2 (proj2 (proj2 (proj2
      (noticeRisk_steps (Sample.profile 5 5 (str "< 500") (Some 7)))))))).
    simpl; lra.
Defined.


Lemma scaled_linear (x : Q) : 100 - (x / 5) * 100 == 100 - 20 * x.
Proof. field. Qed.

Lemma scaled_in_range (x : Q) :
  0 <= 100 - (x / 5) * 100 <= 100 <-> 0 <= x <= 5.
Proof. rewrite scaled_linear. split; intros [? ?]; split; lra. Qed.

(** The scaling on doubles rounds: a proficiency of 3.3 gives a skills risk
    a little above 34, and a proficiency of -1e-300, below the range, gives
    exactly 100, inside [0,100]; the double next above 5 gives a negative
    risk. *)
Lemma scaled_on_doubles :
  (exists q : Q,
     Double.value (Double.skillsRisk (Double.decimal 3.3)) = Some q
     /\ 34 < q /\ q < 34 + (1 # 1000000000000))
  /\ Double.skillsRisk (Double.div (Double.of_Z (-1)) (Double.of_Z (10 ^ 300)))
     = Double.of_Z 100
  /\ (exists q : Q,
        Double.value
          (Double.skillsRisk
             (Double.add (Double.of_Z 5) (S754_finite false 1 (-50))))
        = Some q
        /\ q < 0).
Proof.
  split; [|split].
  - eexists. split; [vm_compute; reflexivity|]. split; reflexivity.
  - vm_compute; reflexivity.
  - eexists. split; [vm_compute; reflexivity|]. reflexivity.
Qed.



(** ** Narrative *)

Lemma firstn_filter_prefix {A} (P : A -> bool) (n : nat) (l : list A) :
  forallb P (firstn n l) = true ->
  firstn n (List.filter P l) = List.filter P (firstn n l).
Proof.
  revert l. induction n as [|n IH]; intros [|x l]; simpl; try reflexivity.
  destruct (P x); simpl; [|discriminate].
  intros H. now rewrite IH.
Qed.

Lemma firstn_filter_short {A} (P : A -> bool) (n : nat) (l : list A) :
  (length l <= n)%nat ->
  firstn n (List.filter P l) = List.filter P (firstn n l).
Proof.
  intros H.
  assert (H' : (length (List.filter P l) <= n)%nat).
  { pose proof (List.filter_length_le P l). lia. }
  now rewrite (firstn_all2 l H), (firstn_all2 _ H').
Qed.

Lemma fallbackRecommendations_at_most_5 (rawText : jsstring) :
  (length (fallbackRecommendations rawText) <= 5)%nat.
Proof.
  unfold fallbackRecommendations.
  pose proof (List.filter_length_le nonempty
                (map trim (firstn 5 (split_lines rawText)))) as H.
  rewrite length_map in H.
  pose proof (firstn_le_length 5 (split_lines rawText)).
  simpl in *. lia.
Qed.

(** C7 as stated fails: the first five lines are taken before the blank
    ones are dropped, so a text that starts with five blank lines yields no
    recommendation although it has two non-empty lines. *)
Lemma fallback_misses_lines_after_blanks :
  llmRecommendations
    (fst (narrate (fun _ => None) (Sample.answer Sample.blank_first)))
  = JArr []
  /\ Spec.first5_nonempty_trimmed Sample.blank_first
     = [str "Learn a new skill"; str "Grow your network"].
Proof. split; vm_compute; reflexivity. Qed.

(** C7, amended: when the raw text does not parse as JSON, the narrative is
    the whole raw text and the recommendations are the non-empty trimmed
    lines among the first five lines; these are the first five non-empty
    trimmed lines whenever the text has at most five lines or none of its
    first five lines is blank. *)
Theorem fallback_on_parse_failure
    (JSON_parse : jsstring -> option json) (resp : Completion) :
  JSON_parse (rawText resp) = None ->
  let n := fst (narrate JSON_parse (GenerateReturns resp)) in
  let lines := split_lines (rawText resp) in
  llmNarrative n = JStr (rawText resp)
  /\ llmRecommendations n
     = JArr (map JStr (List.filter nonempty (map trim (firstn 5 lines))))
  /\ ((length lines <= 5)%nat
      \/ forallb nonempty (map trim (firstn 5 lines)) = true ->
      llmRecommendations n
      = JArr (map JStr (Spec.first5_nonempty_trimmed (rawText resp)))).
Proof.
  intros Hparse n lines. unfold n, narrate. rewrite Hparse. simpl.
  split; [reflexivity|]. split; [reflexivity|].
  intros H. unfold fallbackRecommendations, Spec.first5_nonempty_trimmed.
  fold lines. do 2 f_equal. symmetry.
  destruct H as [H | H].
  - rewrite firstn_filter_short by (now rewrite length_map).
    now rewrite firstn_map.
  - rewrite firstn_filter_prefix by (now rewrite firstn_map).
    now rewrite firstn_map.
Qed.

Lemma fallback_on_parse_failure_witness :
  llmRecommendations
    (fst (narrate Sample.parse
            (Sample.answer (str " Rest " ++ [LF; LF] ++ str "Walk"))))
  = JArr (map JStr (Spec.first5_nonempty_trimmed
                      (str " Rest " ++ [LF; LF] ++ str "Walk"))).
Proof.
  refine (proj2 (proj2 (fallback_on_parse_failure Sample.parse
    {| text := Some (str " Rest " ++ [LF; LF] ++ str "Walk");
       choices := None |} _)) _).
  - vm_compute; reflexivity.
  - left. vm_compute. lia.
Defined.

(** C8 fails on the JSON path: a well-formed answer carrying six
    recommendations is passed on unbounded, whereas the fallback path keeps
    at most five. *)
Theorem json_recommendations_unbounded :
  exists l : list json,
    llmRecommendations
      (fst (narrate Sample.parse (Sample.answer Sample.six_text))) = JArr l
    /\ length l = 6%nat.
Proof. eexists. split; reflexivity. Qed.

(** ** The handler as a whole *)

Lemma log_all_run (l : list LogEntry) (w : World) :
  log_all l w = (inl tt, {| console := console w ++ l; writes := writes w |}).
Proof.
  revert w. induction l as [|x l IH]; intros w; simpl.
  - unfold ret. rewrite app_nil_r. now destruct w.
  - unfold bind, console_error. rewrite IH. simpl.
    now rewrite <- app_assoc.
Qed.

(** Symbolic execution of the handler: unfold the control operators, then
    split on the next test or external answer. *)
Ltac run :=
  cbv beta iota zeta delta
    [bind try_catch ret throw read issue console_error json_response];
  cbn [with_llm_outputs with_weights with_generate with_rejected_weights
       getUser_rejects select_weights_rejects
       getUser select_weights deepseekGenerate uuidv4 insert_profiles
       insert_llm_outputs toISOString_now console writes
       awaited message_or_default fst snd negb orb andb].

Ltac branch :=
  match goal with
  | |- context [log_all ?l ?w] => rewrite (log_all_run l w)
  | |- context [if negb ?b then _ else _] => destruct b eqn:?
  | |- context [awaited ?x] => destruct x as [[?| |]|] eqn:?
  | |- context [getUser ?e ?t] => destruct (getUser e t) as [? ?] eqn:?
  | |- context [if ?b || ?c then _ else _] => destruct (b || c) eqn:?
  | |- context [chain ?a ?f] => destruct (chain a f) eqn:?
  | |- context [narrate ?P ?g] => destruct (narrate P g) as [? ?] eqn:?
  | |- context [match ?x with InsertThrows _ => _ | InsertReturns _ _ => _ end] =>
      destruct x as [[?| |]|[?|] [?|]] eqn:?
  | |- context [match ?x with StoreThrows _ => _ | StoreReturns _ => _ end] =>
      destruct x eqn:?
  | |- context [match ?x with Some _ => _ | None => _ end] =>
      is_var x; destruct x
  end; run.

Ltac execute := unfold serve, handler; run; repeat branch.

(** The handler answers, or throws from its outer [catch] on reading the
    [message] of what it caught. *)
Lemma handler_outcome (JSON_parse : jsstring -> option json)
    (req : Request) (env : Env) (w : World) :
  (exists r w', handler JSON_parse req env w = (inl r, w'))
  \/ (exists w', handler JSON_parse req env w = (inr (TypeError "message"), w')).
Proof. unfold handler; run; repeat branch; eauto. Qed.

Lemma authenticated_run (req : Request) (env : Env) (user : User) :
  authenticated req env user ->
  jsstring_eqb (method req) (str "POST") = true
  /\ nonempty (token_of req) = true
  /\ getUser_rejects env (token_of req) = None
  /\ exists ud,
       getUser env (token_of req) = (Some ud, false)
       /\ has (chain (Some ud) ud_user) = true
       /\ chain (Some ud) ud_data = Some (Some user).
Proof.
  intros (Hm & Ht & Hj & ud & caller & Hu & Hc & Hd).
  split; [unfold jsstring_eqb; now apply bool_decide_eq_true|].
  split; [exact Ht|]. split; [exact Hj|].
  exists ud. simpl. rewrite Hc, Hd. auto.
Qed.


(** What an authenticated request is answered once the weights query has
    resolved, by the answer of the [profiles] insert. *)
Lemma primary_decides (JSON_parse : jsstring -> option json)
    (req : Request) (env : Env) (user : User) :
  authenticated req env user ->
  select_weights_rejects env = None ->
  exists row,
    risk_score row
    = score (factors (req_body req)) (resolveWeights (select_weights env))
    /\ match insert_profiles env row with
       | InsertThrows (Thrown m) =>
           exists w,
             serve JSON_parse req env
             = (inl {| status := 500;
                       body := ErrorBody
                                 (if nonempty m then Msg m
                                  else Msg (str "Server error")) |}, w)
             /\ In (Uncaught (Thrown m)) (console w)
       | InsertThrows (TypeError reading) =>
           exists w,
             serve JSON_parse req env
             = (inl {| status := 500;
                       body := ErrorBody (TypeErrorMessage reading) |}, w)
       | InsertThrows ThrownNullish =>
           exists w,
             serve JSON_parse req env = (inr (TypeError "message"), w)
       | InsertReturns _ (Some m) =>
           exists w,
             serve JSON_parse req env
             = (inl {| status := 500; body := ErrorBody (Msg m) |}, w)
             /\ In (SupabaseInsertError m) (console w)
       | InsertReturns None None =>
           exists w,
             serve JSON_parse req env
             = (inl {| status := 500;
                       body := ErrorBody (TypeErrorMessage "id") |}, w)
       | InsertReturns (Some data_id) None =>
           exists r w,
             serve JSON_parse req env = (inl r, w) /\ status r = 200%Z
       end.
Proof.
  intros Ha Hw. apply authenticated_run in Ha.
  destruct Ha as (Hm & Ht & Hj & ud & Hu & Hc & Hd).
  unfold serve, handler. rewrite Hm, Ht, Hj, Hu. run.
  rewrite Hc, Hd, Hw. run.
  destruct (narrate _ _) as [n l] eqn:Hn. run.
  rewrite log_all_run. run.
  match goal with
  | |- context [insert_profiles env ?row] =>
      exists row;
      destruct (insert_profiles env row) as [[m|reading|]|[d|] [m|]] eqn:Hi
  end; run; (split; [reflexivity|]);
    try (repeat branch; eauto 10 using in_or_app, in_eq; fail).
Qed.

Lemma secondary_is_invisible (JSON_parse : jsstring -> option json)
    (req : Request) (env : Env) (store : LLMOutputRow -> Stored) :
  fst (serve JSON_parse req (with_llm_outputs env store))
  = fst (serve JSON_parse req env).
Proof. execute; reflexivity. Qed.

(** A thrown failure of the [llm_outputs] insert leaves its trace on the
    console. *)
Lemma secondary_failure_logged (JSON_parse : jsstring -> option json)
    (req : Request) (env : Env) (m : jsstring) (r : Response) (w : World)
    (row : LLMOutputRow) :
  (forall row, insert_llm_outputs env row = StoreThrows m) ->
  serve JSON_parse req env = (inl r, w) ->
  In (IntoLLMOutputs row) (writes w) ->
  In FailedToStoreLLMOutput (console w).
Proof.
  intros H. execute;
    try match goal with
        | Hs : insert_llm_outputs env _ = StoreReturns _ |- _ =>
            rewrite H in Hs; discriminate Hs
        end;
    intros Hs Hin; inversion Hs; subst; simpl in *;
    rewrite ?in_app_iff in *; simpl in *;
    intuition (try discriminate; auto).
Qed.

(** The run of a request that passes the gates, gets its weights and has
    its profile row stored, in terms of what the narrative step produced. *)
Lemma stored_run (JSON_parse : jsstring -> option json)
    (req : Request) (env : Env) (user : User) (data_id : jsstring)
    (llm : Narrative) (logged : list LogEntry) :
  authenticated req env user ->
  select_weights_rejects env = None ->
  (forall row, insert_profiles env row = InsertReturns (Some data_id) None) ->
  narrate JSON_parse
    (deepseekGenerate env
       (buildDeepseekPrompt (req_body req) (factors (req_body req))))
  = (llm, logged) ->
  let s := score (factors (req_body req))
             (resolveWeights (select_weights env)) in
  exists failed,
    serve JSON_parse req env
    = (inl {| status := 200;
              body := ScoreBody true s (tier s)
                        (explainability (req_body req) (factors (req_body req)))
                        (if truthy (prop (llmRecommendations llm) (str "length"))
                         then llmRecommendations llm else Run.placeholder)
                        data_id |},
       {| console := logged ++ failed;
          writes := IntoProfiles (Run.profileRow req env user llm)
                    :: (if Run.worthStoring llm
                        then [IntoLLMOutputs (Run.llmOutputRow req env llm)]
                        else []) |})
    /\ (failed = []
        \/ (failed = [FailedToStoreLLMOutput]
            /\ Run.worthStoring llm = true
            /\ exists m, insert_llm_outputs env (Run.llmOutputRow req env llm)
                         = StoreThrows m)).
Proof.
  intros Ha Hq Hins Hn s. apply authenticated_run in Ha.
  destruct Ha as (Hm & Ht & Hj & ud & Hu & Hc & Hd).
  unfold serve, handler. rewrite Hm, Ht, Hj, Hu. run.
  rewrite Hc, Hd, Hq. run. rewrite Hn. run.
  rewrite log_all_run. run. rewrite Hins. run.
  fold (Run.worthStoring llm).
  destruct (Run.worthStoring llm) eqn:Hw; run.
  - fold (Run.llmOutputRow req env llm).
    destruct (insert_llm_outputs env _) as [m|e] eqn:Hst; run.
    + exists [FailedToStoreLLMOutput]. split; [reflexivity|]. right. eauto.
    + exists []. split; [|now left]. simpl. now rewrite app_nil_r.
  - exists []. split; [|now left]. simpl. now rewrite app_nil_r.
Qed.

Lemma sample_authenticated (g : Generated) (primary : Inserted)
    (secondary : Stored) (p : Payload) :
  authenticated (Sample.request p) (Sample.env g primary secondary)
    {| uid := str "u1" |}.
Proof.
  split; [reflexivity|]. split; [reflexivity|]. split; [reflexivity|].
  eexists _, _. repeat split; reflexivity.
Defined.

(** ** Persistence failures *)

(** C9: for a request that reaches persistence, a failed [profiles] insert,
    whether it resolves with an error or rejects, is logged and answered 500
    although the score was computed, while the outcome of the [llm_outputs]
    insert never changes the response.  Of the failures of that second
    insert only a rejection is logged: when it resolves with an error, the
    result is not looked at, and the console holds what the narrative step
    logged and nothing else, as in a run where the record was stored. *)
Theorem secondary_error_result_not_logged
    (JSON_parse : jsstring -> option json)
    (req : Request) (env : Env) (user : User) :
  authenticated req env user ->
  select_weights_rejects env = None ->
  (forall m,
     (forall row, exists data,
        insert_profiles env row = InsertReturns data (Some m)) ->
     exists w,
       serve JSON_parse req env
       = (inl {| status := 500; body := ErrorBody (Msg m) |}, w)
       /\ In (SupabaseInsertError m) (console w))
  /\ (forall m,
        (forall row, insert_profiles env row = InsertThrows (Thrown m)) ->
        exists w,
          serve JSON_parse req env
          = (inl {| status := 500;
                    body := ErrorBody (if nonempty m then Msg m
                                       else Msg (str "Server error")) |}, w)
          /\ In (Uncaught (Thrown m)) (console w))
  /\ (forall store,
        fst (serve JSON_parse req (with_llm_outputs env store))
        = fst (serve JSON_parse req env))
  /\ (forall data_id llm logged,
        (forall row,
           insert_profiles env row = InsertReturns (Some data_id) None) ->
        narrate JSON_parse
          (deepseekGenerate env
             (buildDeepseekPrompt (req_body req) (factors (req_body req))))
        = (llm, logged) ->
        Run.worthStoring llm = true ->
        exists r,
          status r = 200%Z
          /\ serve JSON_parse req env
             = (inl r,
                {| console :=
                     logged
                     ++ match insert_llm_outputs env
                                (Run.llmOutputRow req env llm) with
                        | StoreThrows _ => [FailedToStoreLLMOutput]
                        | StoreReturns _ => []
                        end;
                   writes :=
                     [ IntoProfiles (Run.profileRow req env user llm);
                       IntoLLMOutputs (Run.llmOutputRow req env llm) ] |})).
Proof.
  intros Ha Hq.
  destruct (primary_decides JSON_parse req env user Ha Hq)
    as (row & _ & Hrow).
  split; [|split; [|split]].
  - intros m H. destruct (H row) as [data Hd]. rewrite Hd in Hrow.
    destruct data; exact Hrow.
  - intros m H. rewrite H in Hrow. exact Hrow.
  - intros store. apply secondary_is_invisible.
  - intros data_id llm logged Hins Hn Hworth.
    destruct (stored_run JSON_parse req env user data_id llm logged
                Ha Hq Hins Hn) as (failed & Hs & Hf).
    rewrite Hworth in Hs. eexists. split; [|rewrite Hs; repeat f_equal].
    + reflexivity.
    + destruct Hf as [-> | (-> & _ & m & ->)]; [|reflexivity].
      revert Hs. apply authenticated_run in Ha.
      destruct Ha as (Hm & Ht & Hj & ud & Hu & Hc & Hd).
      unfold serve, handler. rewrite Hm, Ht, Hj, Hu. run.
      rewrite Hc, Hd, Hq. run. rewrite Hn. run.
      rewrite log_all_run. run. rewrite Hins. run.
      fold (Run.worthStoring llm). rewrite Hworth. run.
      fold (Run.llmOutputRow req env llm).
      destruct (insert_llm_outputs env _); run; [|reflexivity].
      intros Hs. inversion Hs as [Hc'].
      apply (f_equal (@length LogEntry)) in Hc'.
      rewrite !length_app in Hc'. simpl in Hc'. lia.
Qed.

Lemma secondary_error_result_not_logged_witness :
  exists r,
    status r = 200%Z
    /\ serve Sample.parse
         (Sample.request (Sample.profile 5 5 (str "> 5,000") (Some 0)))
         (Sample.env (Sample.answer Sample.six_text) Sample.inserted
            (StoreReturns (Some (str "down"))))
       = (inl r,
          {| console := [];
             writes :=
               [ IntoProfiles
                   (Run.profileRow
                      (Sample.request
                         (Sample.profile 5 5 (str "> 5,000") (Some 0)))
                      (Sample.env (Sample.answer Sample.six_text)
                         Sample.inserted (StoreReturns (Some (str "down"))))
                      {| uid := str "u1" |}
                      {| llmNarrative := JStr (str "x");
                         llmRecommendations :=
                           JArr [JStr (str "a"); JStr (str "b");
                                 JStr (str "c"); JStr (str "d");
                                 JStr (str "e"); JStr (str "f")] |});
                 IntoLLMOutputs
                   (Run.llmOutputRow
                      (Sample.request
                         (Sample.profile 5 5 (str "> 5,000") (Some 0)))
                      (Sample.env (Sample.answer Sample.six_text)
                         Sample.inserted (StoreReturns (Some (str "down"))))
                      {| llmNarrative := JStr (str "x");
                         llmRecommendations :=
                           JArr [JStr (str "a"); JStr (str "b");
                                 JStr (str "c"); JStr (str "d");
                                 JStr (str "e"); JStr (str "f")] |}) ] |}).
Proof.
  exact (proj2 (proj2 (proj2
    (secondary_error_result_not_logged Sample.parse
       (Sample.request (Sample.profile 5 5 (str "> 5,000") (Some 0)))
       (Sample.env (Sample.answer Sample.six_text) Sample.inserted
          (StoreReturns (Some (str "down"))))
       {| uid := str "u1" |} (sample_authenticated _ _ _ _) eq_refl)))
    (str "p1") _ [] (fun _ => eq_refl) eq_refl eq_refl).
Defined.

(** ** Weight resolution *)

(** C6 as stated fails.  When the weights query rejects, the failure reaches
    the caller: the outer [catch] answers 500 and nothing is scored or
    stored.  And a stored vector that lacks its [skills] member is not
    replaced by the default: it is used as it is, and the request is
    answered 200 with a score that is NaN. *)
Lemma weights_failure_surfaces :
  let req := Sample.request (Sample.profile 5 5 (str "> 5,000") (Some 0)) in
  let env := Sample.env GenerateThrows Sample.inserted Sample.stored in
  let malformed := {| skills := NaN; performance := Fin 0.22;
                      network := Fin 0.18; mobility := Fin 0.12;
                      notice := Fin 0.12; plateau := Fin 0.08 |} in
  serve Sample.parse req
    (with_rejected_weights env (Thrown (str "fetch failed")))
  = (inl {| status := 500; body := ErrorBody (Msg (str "fetch failed")) |},
     {| console := [Uncaught (Thrown (str "fetch failed"))]; writes := [] |})
  /\ resolveWeights (Some {| weights := Some malformed |}) = malformed
  /\ malformed <> DEFAULT_WEIGHTS
  /\ exists recommendations w,
       serve Sample.parse req
         (with_weights env (Some {| weights := Some malformed |}))
       = (inl {| status := 200;
                 body := ScoreBody true NaN High
                           (explainability (req_body req)
                              (factors (req_body req)))
                           recommendations (str "p1") |}, w).
Proof.
  split; [vm_compute; reflexivity|].
  split; [reflexivity|].
  split; [discriminate|].
  eexists _, _. vm_compute. reflexivity.
Qed.

(** C6, amended: weight resolution fails when the storage query itself
    rejects, and the caller is then answered from the outer [catch], with a
    500 that carries the message of the rejection; whenever the query
    resolves without a vector, for want of a row or of the row's weights,
    the resolved vector is the built-in default and the request is scored
    with it; a vector that the query does return is used as it is, whatever
    its members. *)
Theorem weights_default_when_absent
    (JSON_parse : jsstring -> option json)
    (req : Request) (env : Env) (user : User) :
  authenticated req env user ->
  let p := req_body req in
  let scored_with (w : Weights) :=
    forall data_id,
      (forall row,
         insert_profiles env row = InsertReturns (Some data_id) None) ->
      exists recommendations world,
        serve JSON_parse req env
        = (inl {| status := 200;
                  body := ScoreBody true (score (factors p) w)
                            (tier (score (factors p) w))
                            (explainability p (factors p))
                            recommendations data_id |}, world)
        /\ exists row rest,
             writes world = IntoProfiles row :: rest
             /\ risk_score row = score (factors p) w in
  DEFAULT_WEIGHTS
  = {| skills := Fin 0.28; performance := Fin 0.22; network := Fin 0.18;
       mobility := Fin 0.12; notice := Fin 0.12; plateau := Fin 0.08 |}
  /\ (select_weights_rejects env = None ->
      select_weights env = None
      \/ (exists row, select_weights env = Some row /\ weights row = None) ->
      resolveWeights (select_weights env) = DEFAULT_WEIGHTS
      /\ scored_with DEFAULT_WEIGHTS)
  /\ (forall stored,
        select_weights_rejects env = None ->
        select_weights env = Some {| weights := Some stored |} ->
        resolveWeights (select_weights env) = stored
        /\ scored_with stored)
  /\ (forall m,
        select_weights_rejects env = Some (Thrown m) ->
        serve JSON_parse req env
        = (inl {| status := 500;
                  body := ErrorBody (if nonempty m then Msg m
                                     else Msg (str "Server error")) |},
           {| console := [Uncaught (Thrown m)]; writes := [] |})).
Proof.
  intros Ha p scored_with.
  assert (Hscored : select_weights_rejects env = None ->
                    scored_with (resolveWeights (select_weights env))).
  { intros Hq data_id Hins.
    destruct (narrate JSON_parse
                (deepseekGenerate env (buildDeepseekPrompt p (factors p))))
      as [llm logged] eqn:Hn.
    destruct (stored_run JSON_parse req env user data_id llm logged
                Ha Hq Hins Hn) as (failed & Hs & _).
    eexists _, _. split; [exact Hs|].
    eexists _, _. split; reflexivity. }
  split; [reflexivity|].
  split; [|split].
  - intros Hq Hnone.
    assert (Hr : resolveWeights (select_weights env) = DEFAULT_WEIGHTS).
    { unfold resolveWeights.
      destruct Hnone as [-> | (row & -> & Hrow)]; cbn; [reflexivity|].
      now rewrite Hrow. }
    split; [exact Hr|]. rewrite <- Hr. now apply Hscored.
  - intros stored Hq Hsome.
    assert (Hr : resolveWeights (select_weights env) = stored)
      by now rewrite Hsome.
    split; [exact Hr|]. rewrite <- Hr. now apply Hscored.
  - intros m Hrej. apply authenticated_run in Ha.
    destruct Ha as (Hm & Ht & Hj & ud & Hu & Hc & Hd).
    unfold serve, handler. rewrite Hm, Ht, Hj, Hu. run.
    rewrite Hc, Hd, Hrej. run. reflexivity.
Qed.

Lemma weights_default_when_absent_witness :
  let req := Sample.request (Sample.profile 5 5 (str "> 5,000") (Some 0)) in
  let env := Sample.env GenerateThrows Sample.inserted Sample.stored in
  (resolveWeights (select_weights env) = DEFAULT_WEIGHTS
   /\ exists recommendations world,
        serve Sample.parse req env
        = (inl {| status := 200;
                  body := ScoreBody true (of_Z 6) Low
                            (explainability (req_body req)
                               (factors (req_body req)))
                            recommendations (str "p1") |}, world))
  /\ serve Sample.parse req
       (with_rejected_weights env (Thrown (str "fetch failed")))
     = (inl {| status := 500; body := ErrorBody (Msg (str "fetch failed")) |},
        {| console := [Uncaught (Thrown (str "fetch failed"))];
           writes := [] |}).
Proof.
  intros req env. split.
  - destruct (proj1 (proj2
      (weights_default_when_absent Sample.parse req env {| uid := str "u1" |}
         (sample_authenticated _ _ _ _))) eq_refl (or_introl eq_refl))
      as [Hr Hscored].
    split; [exact Hr|].
    destruct (Hscored (str "p1") (fun _ => eq_refl))
      as (recs & world & Hs & _).
    exists recs, world. exact Hs.
  - exact (proj2 (proj2 (proj2
      (weights_default_when_absent Sample.parse req
         (with_rejected_weights env (Thrown (str "fetch failed")))
         {| uid := str "u1" |} (sample_authenticated _ _ _ _))))
      (str "fetch failed") eq_refl).
Defined.

(** A 200 response carries the score, tier and explanations computed from
    the profile and the resolved weights alone. *)
Lemma success_body (JSON_parse : jsstring -> option json)
    (req : Request) (env : Env) (r : Response) :
  fst (serve JSON_parse req env) = inl r ->
  status r = 200%Z ->
  let p := req_body req in
  let s := score (factors p) (resolveWeights (select_weights env)) in
  exists recommendations profileId,
    body r = ScoreBody true s (tier s) (explainability p (factors p))
               recommendations profileId.
Proof.
  intros Hr Hs p s. revert Hr. execute; simpl; intros Hr;
    inversion Hr; subst r; simpl in Hs; try discriminate Hs; eauto.
Qed.

Lemma narrative_only_reaches_recommendations
    (P P' : jsstring -> option json) (req : Request) (env : Env)
    (generate' : Prompt -> Generated) (r r' : Response) :
  (forall row row', insert_profiles env row = insert_profiles env row') ->
  fst (serve P req env) = inl r ->
  fst (serve P' req (with_generate env generate')) = inl r' ->
  redact r = redact r'.
Proof.
  intros Hconst. unfold serve, handler; run.
  repeat first
    [ match goal with
      | |- context [insert_profiles ?e ?a] =>
          match goal with
          | |- context [insert_profiles e ?b] =>
              lazymatch a with
              | b => fail
              | _ => rewrite (Hconst b a)
              end
          end
      end
    | branch ];
    simpl; intros Hr Hr'; inversion Hr; inversion Hr'; subst r r';
    try reflexivity; try discriminate; try congruence.
Qed.

(** C10: two served requests with the same profile and the same resolved
    weights that both succeed carry the same score, tier and explanations,
    whatever the narrative service and every other collaborator answered;
    and changing only the narrative service (and the parser of its text)
    changes nothing of the response but the recommendations, as long as the
    [profiles] insert answers alike. *)
Theorem core_response_independent_of_narrative
    (P P' : jsstring -> option json) (req req' : Request) (env env' : Env)
    (r r' : Response) :
  req_body req = req_body req' ->
  resolveWeights (select_weights env) = resolveWeights (select_weights env') ->
  fst (serve P req env) = inl r ->
  fst (serve P' req' env') = inl r' ->
  (status r = 200%Z -> status r' = 200%Z ->
   exists score tier explainability recs pid recs' pid',
     body r = ScoreBody true score tier explainability recs pid
     /\ body r' = ScoreBody true score tier explainability recs' pid')
  /\ (forall generate' r'',
        (forall row row', insert_profiles env row = insert_profiles env row') ->
        fst (serve P' req (with_generate env generate')) = inl r'' ->
        redact r = redact r'').
Proof.
  intros Hp Hw Hr Hr'. split.
  - intros Hs Hs'.
    destruct (success_body P req env r Hr Hs) as (recs & pid & Hb).
    destruct (success_body P' req' env' r' Hr' Hs') as (recs' & pid' & Hb').
    rewrite <- Hp, <- Hw in Hb'. eauto 10.
  - intros generate' r'' Hconst Hr''.
    exact (narrative_only_reaches_recommendations P P' req env generate'
             r r'' Hconst Hr Hr'').
Qed.

Lemma core_response_independent_of_narrative_witness :
  exists r r',
    fst (serve Sample.parse
           (Sample.request (Sample.profile 4 3 (str "< 500") (Some 45)))
           (Sample.env (Sample.answer Sample.six_text)
              Sample.inserted Sample.stored)) = inl r
    /\ fst (serve (fun _ => None)
              (Sample.request (Sample.profile 4 3 (str "< 500") (Some 45)))
              (Sample.env GenerateThrows Sample.inserted Sample.stored))
       = inl r'
    /\ (exists score tier explainability recs pid recs' pid',
          body r = ScoreBody true score tier explainability recs pid
          /\ body r' = ScoreBody true score tier explainability recs' pid')
    /\ redact r = redact r'.
Proof.
  eexists _, _.
  split; [reflexivity|]. split; [reflexivity|].
  pose proof (core_response_independent_of_narrative
                Sample.parse (fun _ => None)
                (Sample.request (Sample.profile 4 3 (str "< 500") (Some 45)))
                (Sample.request (Sample.profile 4 3 (str "< 500") (Some 45)))
                (Sample.env (Sample.answer Sample.six_text)
                   Sample.inserted Sample.stored)
                (Sample.env GenerateThrows Sample.inserted Sample.stored)
                _ _ eq_refl eq_refl eq_refl eq_refl) as [H1 H2].
  split.
  - apply H1; reflexivity.
  - apply (H2 (fun _ => GenerateThrows)); reflexivity.
Defined.

(** ** Strings: splitting, trimming, replacing *)

Lemma split_lines_split (s : jsstring) : split_lines s = Text.split LF s.
Proof. induction s as [|c s IH]; simpl; [reflexivity | now rewrite IH]. Qed.

Lemma split_nonempty (sep : N) (s : jsstring) : Text.split sep s <> [].
Proof.
  destruct s as [|c s]; simpl; [discriminate|].
  destruct (N.eqb c sep); [discriminate|].
  destruct (Text.split sep s); discriminate.
Qed.

Lemma join_cons_unit (sep c : N) (l : jsstring) (ls : list jsstring) :
  Text.join sep ((c :: l) :: ls) = c :: Text.join sep (l :: ls).
Proof. destruct ls; reflexivity. Qed.

Lemma join_split (sep : N) (s : jsstring) :
  Text.join sep (Text.split sep s) = s.
Proof.
  induction s as [|c s IH]; simpl; [reflexivity|].
  destruct (N.eqb_spec c sep) as [->|Hne].
  - destruct (Text.split sep s) as [|l ls] eqn:Hs;
      [now destruct (split_nonempty sep s)|].
    change (Text.join sep ([] :: l :: ls))
      with (sep :: Text.join sep (l :: ls)).
    now rewrite IH.
  - destruct (Text.split sep s) as [|l ls] eqn:Hs;
      [now destruct (split_nonempty sep s)|].
    rewrite join_cons_unit. now rewrite IH.
Qed.

Lemma split_free (sep : N) (s : jsstring) :
  Forall (fun part => ~ In sep part) (Text.split sep s).
Proof.
  induction s as [|c s IH]; simpl.
  - constructor; [intros []|constructor].
  - destruct (N.eqb_spec c sep) as [->|Hne].
    + constructor; [intros []|exact IH].
    + destruct (Text.split sep s) as [|l ls];
        [constructor; [intros [H|[]]; congruence | constructor]|].
      inversion IH as [|? ? Hl Hls]; subst.
      constructor; [|exact Hls].
      intros [H|H]; [congruence | exact (Hl H)].
Qed.

Lemma split_length (sep : N) (s : jsstring) :
  length (Text.split sep s) = S (length (List.filter (N.eqb sep) s)).
Proof.
  induction s as [|c s IH]; simpl; [reflexivity|].
  rewrite (N.eqb_sym sep c).
  destruct (N.eqb c sep); simpl; [now rewrite IH|].
  destruct (Text.split sep s) as [|l ls] eqn:Hs;
    [now destruct (split_nonempty sep s)|].
  simpl in *. exact IH.
Qed.

(** X1: splitting a text into lines loses nothing: joining the lines with
    line feeds gives the text back, no line contains a line feed, and there
    is one line more than there are line feeds (so at least one line). *)
Theorem split_lines_round_trip (s : jsstring) :
  Text.join LF (split_lines s) = s
  /\ Forall (fun line => ~ In LF line) (split_lines s)
  /\ length (split_lines s) = S (length (List.filter (N.eqb LF) s)).
Proof.
  rewrite split_lines_split.
  split; [apply join_split|]. split; [apply split_free | apply split_length].
Qed.

Lemma trimStart_split (s : jsstring) :
  exists pre, s = pre ++ trimStart s /\ forallb is_space pre = true.
Proof.
  induction s as [|c s (pre & Hs & Hpre)]; simpl.
  - exists []. split; reflexivity.
  - destruct (is_space c) eqn:Hc.
    + exists (c :: pre). simpl. rewrite Hc, Hpre. split; [now f_equal|reflexivity].
    + exists []. split; reflexivity.
Qed.

Lemma trimStart_clean (s : jsstring) : Text.starts_clean (trimStart s) = true.
Proof.
  induction s as [|c s IH]; simpl; [reflexivity|].
  destruct (is_space c) eqn:Hc; [exact IH|]. simpl. now rewrite Hc.
Qed.

Lemma trimStart_of_clean (s : jsstring) :
  Text.starts_clean s = true -> trimStart s = s.
Proof.
  destruct s as [|c s]; simpl; [reflexivity|].
  now destruct (is_space c).
Qed.

Lemma forallb_rev {A} (f : A -> bool) (l : list A) :
  forallb f (rev l) = forallb f l.
Proof.
  induction l as [|x l IH]; simpl; [reflexivity|].
  rewrite forallb_app, IH. simpl. rewrite andb_true_r. apply andb_comm.
Qed.

(** What [trim] keeps of a string: the string is white space, then the
    trimmed string, then white space. *)
Lemma trim_split (s : jsstring) :
  exists pre post,
    s = pre ++ trim s ++ post
    /\ forallb is_space pre = true /\ forallb is_space post = true.
Proof.
  unfold trim.
  destruct (trimStart_split s) as (pre & Hs & Hpre).
  destruct (trimStart_split (rev (trimStart s))) as (post & Ht & Hpost).
  exists pre, (rev post). split; [|split; [exact Hpre|now rewrite forallb_rev]].
  rewrite <- rev_app_distr, <- Ht, rev_involutive. exact Hs.
Qed.

Lemma trim_clean (s : jsstring) :
  Text.starts_clean (trim s) = true
  /\ Text.starts_clean (rev (trim s)) = true.
Proof.
  unfold trim. split; [|rewrite rev_involutive; apply trimStart_clean].
  pose proof (trimStart_clean s) as Hc.
  destruct (trimStart_split (rev (trimStart s))) as (post & Ht & _).
  apply (f_equal (@rev N)) in Ht. rewrite rev_involutive, rev_app_distr in Ht.
  destruct (rev (trimStart (rev (trimStart s)))) as [|c u]; [reflexivity|].
  rewrite Ht in Hc. exact Hc.
Qed.

(** X2: [trim] removes white space at both ends and nothing else: the
    string is white space, the trimmed string, white space; the trimmed
    string neither starts nor ends with white space; and trimming again
    changes nothing. *)
Theorem trim_strips_both_ends (s : jsstring) :
  (exists pre post,
     s = pre ++ trim s ++ post
     /\ forallb is_space pre = true /\ forallb is_space post = true)
  /\ Text.starts_clean (trim s) = true
  /\ Text.starts_clean (rev (trim s)) = true
  /\ trim (trim s) = trim s.
Proof.
  split; [apply trim_split|].
  destruct (trim_clean s) as [Hh Hl]. split; [exact Hh|]. split; [exact Hl|].
  unfold trim at 1. rewrite (trimStart_of_clean _ Hh).
  rewrite (trimStart_of_clean _ Hl). apply rev_involutive.
Qed.

Lemma trim_keeps_free (c : N) (s : jsstring) : ~ In c s -> ~ In c (trim s).
Proof.
  intros Hs Hin. destruct (trim_split s) as (pre & post & Heq & _).
  apply Hs. rewrite Heq. apply in_or_app. right. apply in_or_app. now left.
Qed.

(** X3: each recommendation of the fallback path is one of the first five
    lines of the raw text, trimmed; it is not empty, has no white space at
    either end and no line feed inside; and there are at most five. *)
Theorem fallbackRecommendations_entries (rawText : jsstring) :
  (length (fallbackRecommendations rawText) <= 5)%nat
  /\ forall r, In r (fallbackRecommendations rawText) ->
       (exists line, In line (firstn 5 (split_lines rawText)) /\ r = trim line)
       /\ r <> []
       /\ Text.starts_clean r = true
       /\ Text.starts_clean (rev r) = true
       /\ ~ In LF r.
Proof.
  split; [apply fallbackRecommendations_at_most_5|].
  intros r Hr. unfold fallbackRecommendations in Hr.
  apply List.filter_In in Hr. destruct Hr as [Hr Hne].
  apply in_map_iff in Hr. destruct Hr as (line & <- & Hline).
  split; [now exists line|].
  split; [intros H; rewrite H in Hne; discriminate|].
  destruct (trim_clean line) as [Hh Hl].
  split; [exact Hh|]. split; [exact Hl|].
  apply trim_keeps_free.
  pose proof (split_free LF rawText) as Hfree.
  rewrite <- split_lines_split in Hfree.
  rewrite List.Forall_forall in Hfree. apply Hfree.
  rewrite <- (firstn_skipn 5 (split_lines rawText)).
  apply in_or_app. now left.
Qed.

Lemma replace_unfold (s pat rep : jsstring) :
  replace s pat rep
  = if starts_with pat s then rep ++ skipn (length pat) s
    else match s with
         | [] => []
         | c :: s' => c :: replace s' pat rep
         end.
Proof. destruct s; reflexivity. Qed.

Lemma starts_with_app (pat t : jsstring) : starts_with pat (pat ++ t) = true.
Proof.
  induction pat as [|a pat IH]; [now destruct t|].
  simpl. now rewrite N.eqb_refl, IH.
Qed.

Lemma starts_with_prefix (pat s : jsstring) :
  starts_with pat s = true -> s = pat ++ skipn (length pat) s.
Proof.
  revert s. induction pat as [|a pat IH]; intros s H; [reflexivity|].
  destruct s as [|b s]; [discriminate|]. simpl in H.
  apply andb_true_iff in H. destruct H as [Hab Hs].
  apply N.eqb_eq in Hab. subst b. simpl. f_equal. now apply IH.
Qed.

Lemma replace_prefix (pat t rep : jsstring) :
  replace (pat ++ t) pat rep = rep ++ t.
Proof.
  rewrite replace_unfold, starts_with_app.
  now rewrite skipn_app, skipn_all, Nat.sub_diag.
Qed.

Lemma replace_absent (s pat rep : jsstring) :
  Text.includes s pat = false -> replace s pat rep = s.
Proof.
  induction s as [|c s IH]; intros H; rewrite replace_unfold;
    simpl in H; apply orb_false_iff in H; destruct H as [Hs Hrest];
    rewrite Hs; [reflexivity|].
  f_equal. now apply IH.
Qed.

Lemma replace_empty (s pat : jsstring) :
  replace s pat [] = [] <-> s = [] \/ s = pat.
Proof.
  rewrite replace_unfold. destruct (starts_with pat s) eqn:Hs.
  - apply starts_with_prefix in Hs. simpl. split.
    + intros H. rewrite H, app_nil_r in Hs. now right.
    + intros [-> | ->].
      * now destruct pat.
      * rewrite skipn_all2; [reflexivity|]. simpl. lia.
  - destruct s as [|c s]; [tauto|]. split; [discriminate|].
    intros [H | H]; [discriminate|].
    subst pat. pose proof (starts_with_app (c :: s) []) as H'.
    rewrite app_nil_r in H'. congruence.
Qed.

(** The first occurrence of the pattern is the one replaced, wherever it
    is. *)
Lemma replace_first (a b pat rep : jsstring) :
  (forall i, (i < length a)%nat ->
     starts_with pat (skipn i (a ++ pat ++ b)) = false) ->
  replace (a ++ pat ++ b) pat rep = a ++ rep ++ b.
Proof.
  induction a as [|c a IH]; intros H.
  - simpl. rewrite replace_unfold, starts_with_app. f_equal.
    rewrite skipn_app, skipn_all, Nat.sub_diag. reflexivity.
  - rewrite replace_unfold.
    pose proof (H 0%nat ltac:(simpl; lia)) as H0. simpl in H0.
    simpl. rewrite H0. f_equal. apply IH.
    intros i Hi. apply (H (S i)). simpl. lia.
Qed.

(** X4: the token is the Authorization header with its first ['Bearer ']
    removed, wherever in the header it stands: a header ['Bearer ' + t]
    gives [t], a header [a + 'Bearer ' + b] with no earlier ['Bearer ']
    gives [a + b], a header in which ['Bearer '] does not occur is the token
    as it stands, and the token is empty exactly when the header is absent,
    empty or just ['Bearer ']. *)
Theorem token_of_header (req : Request) :
  (forall t, authorization req = Some (str "Bearer " ++ t) -> token_of req = t)
  /\ (forall a b,
        authorization req = Some (a ++ str "Bearer " ++ b) ->
        (forall i, (i < length a)%nat ->
           starts_with (str "Bearer ") (skipn i (a ++ str "Bearer " ++ b))
           = false) ->
        token_of req = a ++ b)
  /\ (forall h, authorization req = Some h ->
        Text.includes h (str "Bearer ") = false -> token_of req = h)
  /\ (nonempty (token_of req) = false <->
      authorization req = None \/ authorization req = Some []
      \/ authorization req = Some (str "Bearer ")).
Proof.
  unfold token_of. split; [|split; [|split]].
  - intros t ->. cbn [nullish]. apply replace_prefix.
  - intros a b -> H. cbn [nullish].
    now rewrite (replace_first a b (str "Bearer ") [] H).
  - intros h -> Hh. now apply replace_absent.
  - transitivity (replace (nullish (authorization req) []) (str "Bearer ") []
                  = []).
    { destruct (replace _ _ _); simpl; split; congruence. }
    rewrite replace_empty.
    destruct (authorization req) as [h|]; simpl.
    + split.
      * intros [-> | ->]; auto.
      * intros [H | [H | H]]; [discriminate| |]; inversion H; auto.
    + split; auto.
Qed.

Lemma token_of_header_witness :
  token_of {| method := str "POST";
              authorization := Some (str "Bearer " ++ str "abc");
              req_body := Sample.profile 5 5 (str "< 500") None |}
  = str "abc"
  /\ token_of {| method := str "POST";
                 authorization := Some (str "Basic Bearer xyz");
                 req_body := Sample.profile 5 5 (str "< 500") None |}
     = str "Basic xyz"
  /\ token_of {| method := str "POST";
                 authorization := Some (str "abc");
                 req_body := Sample.profile 5 5 (str "< 500") None |}
     = str "abc"
  /\ nonempty (token_of {| method := str "POST";
                           authorization := Some (str "Bearer ");
                           req_body := Sample.profile 5 5 (str "< 500") None |})
     = false.
Proof.
  split; [|split; [|split]].
  - apply (proj1 (token_of_header _)). reflexivity.
  - apply (proj1 (proj2 (token_of_header _)) (str "Basic ") (str "xyz"));
      [reflexivity|].
    intros i Hi. simpl in Hi.
    do 6 (destruct i as [|i]; [reflexivity|]). lia.
  - apply (proj1 (proj2 (proj2 (token_of_header _)))); reflexivity.
  - apply (proj2 (proj2 (proj2 (token_of_header _)))). right. right.
    reflexivity.
Defined.

(** ** The gates of the handler *)

Lemma method_mismatch (req : Request) :
  method req <> str "POST" -> jsstring_eqb (method req) (str "POST") = false.
Proof. intros H. unfold jsstring_eqb. now apply bool_decide_eq_false. Qed.

Lemma method_match (req : Request) :
  method req = str "POST" -> jsstring_eqb (method req) (str "POST") = true.
Proof. intros H. unfold jsstring_eqb. now apply bool_decide_eq_true. Qed.

(** X5: a request whose method is not POST is answered 405 'Method not
    allowed' whatever its header, body and the collaborators are; nothing is
    logged and no insert is issued. *)
Theorem other_methods_rejected (JSON_parse : jsstring -> option json)
    (req : Request) (env : Env) :
  method req <> str "POST" ->
  serve JSON_parse req env
  = (inl {| status := 405;
            body := ErrorBody (Msg (str "Method not allowed")) |},
     Run.nothing_done).
Proof.
  intros H. unfold serve, handler. now rewrite (method_mismatch req H).
Qed.

Lemma other_methods_rejected_witness :
  serve Sample.parse
    {| method := str "GET"; authorization := Some (str "Bearer token");
       req_body := Sample.profile 5 5 (str "< 500") None |}
    (Sample.env GenerateThrows Sample.inserted Sample.stored)
  = (inl {| status := 405;
            body := ErrorBody (Msg (str "Method not allowed")) |},
     Run.nothing_done).
Proof.
  apply other_methods_rejected. vm_compute. discriminate.
Defined.

(** X6: a POST whose Authorization header is absent, empty or just
    ['Bearer '] is answered 401 'Missing token' before any collaborator is
    asked; nothing is logged and no insert is issued. *)
Theorem missing_token_rejected (JSON_parse : jsstring -> option json)
    (req : Request) (env : Env) :
  method req = str "POST" ->
  authorization req = None \/ authorization req = Some []
  \/ authorization req = Some (str "Bearer ") ->
  serve JSON_parse req env
  = (inl {| status := 401; body := ErrorBody (Msg (str "Missing token")) |},
     Run.nothing_done).
Proof.
  intros Hm Ha. unfold serve, handler. rewrite (method_match req Hm).
  assert (Ht : nonempty (token_of req) = false).
  { unfold token_of. destruct Ha as [-> | [-> | ->]]; reflexivity. }
  now rewrite Ht.
Qed.

Lemma missing_token_rejected_witness :
  serve Sample.parse
    {| method := str "POST"; authorization := Some (str "Bearer ");
       req_body := Sample.profile 5 5 (str "< 500") None |}
    (Sample.env GenerateThrows Sample.inserted Sample.stored)
  = (inl {| status := 401; body := ErrorBody (Msg (str "Missing token")) |},
     Run.nothing_done).
Proof.
  apply missing_token_rejected; [reflexivity|]. right. right. reflexivity.
Defined.

(** X7: a POST with a token for which the auth client reports an error, or
    no data, or data without a user, is answered 401 'Invalid token'; the
    score is not persisted and nothing is logged. *)
Theorem invalid_token_rejected (JSON_parse : jsstring -> option json)
    (req : Request) (env : Env) (userData : option UserData) (userErr : bool) :
  method req = str "POST" ->
  nonempty (token_of req) = true ->
  getUser_rejects env (token_of req) = None ->
  getUser env (token_of req) = (userData, userErr) ->
  userErr = true \/ userData = None
  \/ (exists ud, userData = Some ud /\ ud_user ud = None) ->
  serve JSON_parse req env
  = (inl {| status := 401; body := ErrorBody (Msg (str "Invalid token")) |},
     Run.nothing_done).
Proof.
  intros Hm Ht Hj Hu Hbad. unfold serve, handler.
  rewrite (method_match req Hm), Ht, Hj, Hu. cbn [negb].
  assert (Hc : userErr || negb (has (chain userData ud_user)) = true).
  { destruct Hbad as [-> | [-> | (ud & -> & Hud)]]; [reflexivity| |].
    - now destruct userErr.
    - simpl. rewrite Hud. now destruct userErr. }
  unfold try_catch, bind, awaited, ret. rewrite Hc. reflexivity.
Qed.

Lemma invalid_token_rejected_witness :
  serve Sample.parse
    (Sample.request (Sample.profile 5 5 (str "< 500") None))
    {| getUser_rejects := fun _ => None;
       getUser := fun _ => (None, true);
       select_weights_rejects := None;
       select_weights := None;
       deepseekGenerate := fun _ => GenerateThrows;
       uuidv4 := fun _ => str "id";
       insert_profiles := fun _ => Sample.inserted;
       insert_llm_outputs := fun _ => Sample.stored;
       toISOString_now := str "now" |}
  = (inl {| status := 401; body := ErrorBody (Msg (str "Invalid token")) |},
     Run.nothing_done).
Proof.
  apply (invalid_token_rejected _ _ _ None true);
    [reflexivity | reflexivity | reflexivity | reflexivity
    | left; reflexivity].
Defined.

(** X8: every request is answered, with status 200, 401, 405 or 500,
    whatever the collaborators return or throw, with one exception: when
    the auth client, the weights query or the [profiles] insert rejects
    with [null] or [undefined], the outer [catch] logs it and then throws
    itself, on reading its [message], and the handler rejects without an
    answer. *)
Theorem every_request_answered (JSON_parse : jsstring -> option json)
    (req : Request) (env : Env) :
  (exists r w,
     serve JSON_parse req env = (inl r, w)
     /\ (status r = 200 \/ status r = 401 \/ status r = 405
         \/ status r = 500)%Z)
  \/ (exists w,
        serve JSON_parse req env = (inr (TypeError "message"), w)
        /\ In (Uncaught ThrownNullish) (console w)
        /\ (getUser_rejects env (token_of req) = Some ThrownNullish
            \/ select_weights_rejects env = Some ThrownNullish
            \/ exists row, insert_profiles env row = InsertThrows ThrownNullish)).
Proof.
  execute;
    first [ left; eexists _, _; (split; [reflexivity|]); simpl; tauto
          | right; eexists; split; [reflexivity|];
            split; [simpl; rewrite ?in_app_iff; simpl; tauto|]; eauto ].
Qed.

Lemma every_request_answered_witness :
  exists w,
    serve Sample.parse
      (Sample.request (Sample.profile 5 5 (str "> 5,000") (Some 0)))
      (with_rejected_weights
         (Sample.env GenerateThrows Sample.inserted Sample.stored)
         ThrownNullish)
    = (inr (TypeError "message"), w).
Proof.
  destruct (every_request_answered Sample.parse
              (Sample.request (Sample.profile 5 5 (str "> 5,000") (Some 0)))
              (with_rejected_weights
                 (Sample.env GenerateThrows Sample.inserted Sample.stored)
                 ThrownNullish))
    as [(r & w & Hs & _) | (w & Hs & _)].
  - vm_compute in Hs. discriminate Hs.
  - exists w. exact Hs.
Defined.

(** ** What the handler persists *)

(** X9: the inserts a request issues are none, or the profile row alone, or
    the profile row followed by one LLM record; the LLM record is only
    issued after the [profiles] insert returned without an error, it carries
    the narrative stored in the profile row and the generated id of that
    row; a 401 or 405 issues none. *)
Theorem inserts_issued (JSON_parse : jsstring -> option json)
    (req : Request) (env : Env) (r : Response) (w : World) :
  serve JSON_parse req env = (inl r, w) ->
  (writes w = []
   \/ (exists user llm, writes w = [IntoProfiles (Run.profileRow req env user llm)])
   \/ (exists user llm data,
         writes w = [IntoProfiles (Run.profileRow req env user llm);
                     IntoLLMOutputs (Run.llmOutputRow req env llm)]
         /\ insert_profiles env (Run.profileRow req env user llm)
            = InsertReturns data None
         /\ Run.worthStoring llm = true
         /\ profile_id (Run.llmOutputRow req env llm)
            = id (Run.profileRow req env user llm)))
  /\ ((status r = 401 \/ status r = 405)%Z -> writes w = []).
Proof.
  execute; intros H; inversion H; subst r w; clear H;
    (split; [|simpl; intros [?|?]; try discriminate; reflexivity]);
    simpl;
    first [ left; reflexivity
          | right; left; eexists _, _; reflexivity
          | right; right; eexists _, _, _;
            split; [reflexivity|]; split; [eassumption|];
            split; [eassumption|reflexivity] ].
Qed.

Lemma inserts_issued_witness :
  exists r w,
    serve Sample.parse
      (Sample.request (Sample.profile 5 5 (str "< 500") None))
      (Sample.env (Sample.answer Sample.six_text)
         Sample.inserted Sample.stored) = (inl r, w)
    /\ ((status r = 401 \/ status r = 405)%Z -> writes w = []).
Proof.
  eexists _, _. split; [vm_compute; reflexivity|].
  apply (inserts_issued Sample.parse
           (Sample.request (Sample.profile 5 5 (str "< 500") None))
           (Sample.env (Sample.answer Sample.six_text)
              Sample.inserted Sample.stored)).
  vm_compute; reflexivity.
Defined.

(** X10: a 200 response stands for a persisted row: the profile row was
    issued and its insert returned the id the response carries; the row
    holds the payload's fields as received, the caller's id, the factors,
    and the very score the response reports. *)
Theorem success_is_persisted (JSON_parse : jsstring -> option json)
    (req : Request) (env : Env) (r : Response) (w : World) :
  serve JSON_parse req env = (inl r, w) ->
  status r = 200%Z ->
  exists user llm data_id recs,
    let row := Run.profileRow req env user llm in
    hd_error (writes w) = Some (IntoProfiles row)
    /\ insert_profiles env row = InsertReturns (Some data_id) None
    /\ body r = ScoreBody true (risk_score row) (tier (risk_score row))
                 (explainability (req_body req) (risk_details row))
                 recs data_id
    /\ (recs = llm_recommendations row \/ recs = Run.placeholder)
    /\ (exists ud, getUser env (token_of req) = (Some ud, false)
                   /\ ud_data ud = Some (Some user)).
Proof.
  execute; intros H Hs; inversion H; subst r w; clear H;
    simpl in Hs; try discriminate Hs.
  all: eexists _, _, _, _; cbn zeta.
  all: split; [reflexivity|]; split; [eassumption|]; split; [reflexivity|].
  all: split;
    [ match goal with |- context [if ?c then _ else _] => destruct c end;
      [left|right]; reflexivity
    | destruct o as [ud|]; simpl in *; [|congruence];
      destruct b; simpl in *; [congruence|];
      eexists; split; [reflexivity|eassumption] ].
Qed.

Lemma success_is_persisted_witness :
  exists r w,
    serve Sample.parse
      (Sample.request (Sample.profile 5 5 (str "< 500") None))
      (Sample.env (Sample.answer Sample.six_text)
         Sample.inserted Sample.stored) = (inl r, w)
    /\ exists row, hd_error (writes w) = Some (IntoProfiles row).
Proof.
  eexists _, _. split; [vm_compute; reflexivity|].
  edestruct (success_is_persisted Sample.parse
               (Sample.request (Sample.profile 5 5 (str "< 500") None))
               (Sample.env (Sample.answer Sample.six_text)
                  Sample.inserted Sample.stored))
    as (user & llm & data_id & recs & Hw & _);
    [vm_compute; reflexivity | reflexivity |].
  eexists. exact Hw.
Defined.

(** X11: once a request has passed the gates, the weights query has
    resolved and its profile row is stored, the response is a 200 with the
    score, whatever the narrative service did (answered JSON, answered
    prose, or threw) and whatever became of the LLM record. *)
Theorem narrative_never_aborts (JSON_parse : jsstring -> option json)
    (req : Request) (env : Env) (user : User) (data_id : jsstring) :
  authenticated req env user ->
  select_weights_rejects env = None ->
  (forall row, insert_profiles env row = InsertReturns (Some data_id) None) ->
  exists recs w,
    let s := score (factors (req_body req))
               (resolveWeights (select_weights env)) in
    serve JSON_parse req env
    = (inl {| status := 200;
              body := ScoreBody true s (tier s)
                        (explainability (req_body req) (factors (req_body req)))
                        recs data_id |}, w).
Proof.
  intros Ha Hq Hins.
  destruct (narrate JSON_parse
              (deepseekGenerate env
                 (buildDeepseekPrompt (req_body req) (factors (req_body req)))))
    as [llm logged] eqn:Hn.
  destruct (stored_run JSON_parse req env user data_id llm logged
              Ha Hq Hins Hn) as (failed & Hs & _).
  eauto.
Qed.

Lemma narrative_never_aborts_witness :
  exists recs w,
    serve Sample.parse
      (Sample.request (Sample.profile 5 5 (str "> 5,000") (Some 0)))
      (Sample.env GenerateThrows Sample.inserted
         (StoreThrows (str "down")))
    = (inl {| status := 200;
              body := ScoreBody true (of_Z 6) Low
                        (explainability
                           (Sample.profile 5 5 (str "> 5,000") (Some 0))
                           (factors (Sample.profile 5 5 (str "> 5,000") (Some 0))))
                        recs (str "p1") |}, w).
Proof.
  apply (narrative_never_aborts Sample.parse
           (Sample.request (Sample.profile 5 5 (str "> 5,000") (Some 0)))
           (Sample.env GenerateThrows Sample.inserted
              (StoreThrows (str "down")))
           {| uid := str "u1" |} (str "p1")).
  - apply sample_authenticated.
  - reflexivity.
  - intros row. reflexivity.
Defined.

(** X12: when the narrative service throws, the failure is logged once, the
    profile row is stored with a null narrative and no recommendations, no
    LLM record is issued, and the response carries the stand-in
    recommendation; this for a request that has passed the gates, whose
    weights query has resolved and whose profile row is stored. *)
Theorem narrative_failure_degrades (JSON_parse : jsstring -> option json)
    (req : Request) (env : Env) (user : User) (data_id : jsstring) :
  authenticated req env user ->
  select_weights_rejects env = None ->
  (forall row, insert_profiles env row = InsertReturns (Some data_id) None) ->
  (forall prompt, deepseekGenerate env prompt = GenerateThrows) ->
  let s := score (factors (req_body req))
             (resolveWeights (select_weights env)) in
  let llm := {| llmNarrative := JNull; llmRecommendations := JArr [] |} in
  serve JSON_parse req env
  = (inl {| status := 200;
            body := ScoreBody true s (tier s)
                      (explainability (req_body req) (factors (req_body req)))
                      Run.placeholder data_id |},
     {| console := [DeepseekError];
        writes := [IntoProfiles (Run.profileRow req env user llm)] |}).
Proof.
  intros Ha Hq Hins Hg s llm.
  destruct (stored_run JSON_parse req env user data_id llm [DeepseekError]
              Ha Hq Hins) as (failed & Hs & Hf).
  { rewrite Hg. reflexivity. }
  rewrite Hs. destruct Hf as [-> | (_ & Hw & _)]; [reflexivity|].
  discriminate Hw.
Qed.

Lemma narrative_failure_degrades_witness :
  exists w,
    serve Sample.parse
      (Sample.request (Sample.profile 5 5 (str "> 5,000") (Some 0)))
      (Sample.env GenerateThrows Sample.inserted Sample.stored)
    = (inl {| status := 200;
              body := ScoreBody true (of_Z 6) Low
                        (explainability
                           (Sample.profile 5 5 (str "> 5,000") (Some 0))
                           (factors (Sample.profile 5 5 (str "> 5,000") (Some 0))))
                        Run.placeholder (str "p1") |}, w)
    /\ console w = [DeepseekError].
Proof.
  eexists. split.
  - apply (narrative_failure_degrades Sample.parse
             (Sample.request (Sample.profile 5 5 (str "> 5,000") (Some 0)))
             (Sample.env GenerateThrows Sample.inserted Sample.stored)
             {| uid := str "u1" |} (str "p1")).
    + apply sample_authenticated.
    + reflexivity.
    + intros row. reflexivity.
    + intros prompt. reflexivity.
  - reflexivity.
Defined.

(** X13: the recommendations of a 200 response are never empty: they are
    what the narrative step produced when that has a truthy [length], and
    the one-line stand-in otherwise. *)
Theorem recommendations_never_empty (JSON_parse : jsstring -> option json)
    (req : Request) (env : Env) (r : Response) (w : World)
    (ok : bool) (s : num) (t : Tier) (ex : list Explanation)
    (recs : json) (pid : jsstring) :
  serve JSON_parse req env = (inl r, w) ->
  body r = ScoreBody ok s t ex recs pid ->
  truthy (prop recs (str "length")) = true
  /\ recs <> JArr [] /\ recs <> JStr [] /\ recs <> JNull.
Proof.
  assert (Hne : forall v, truthy (prop v (str "length")) = true ->
                  v <> JArr [] /\ v <> JStr [] /\ v <> JNull).
  { intros v Hv. repeat split; intros ->; discriminate Hv. }
  execute; intros H Hb; inversion H; subst r w; clear H;
    simpl in Hb; inversion Hb; subst; clear Hb;
    match goal with
    | |- context [if ?c then _ else _] => destruct c eqn:Hc
    end;
    (split; [first [exact Hc | reflexivity]|]);
    apply Hne; first [exact Hc | reflexivity].
Qed.

Lemma recommendations_never_empty_witness :
  exists r w recs,
    serve Sample.parse
      (Sample.request (Sample.profile 5 5 (str "> 5,000") (Some 0)))
      (Sample.env (Sample.answer []) Sample.inserted Sample.stored)
    = (inl r, w)
    /\ body r = ScoreBody true (of_Z 6) Low
                  (explainability
                     (Sample.profile 5 5 (str "> 5,000") (Some 0))
                     (factors (Sample.profile 5 5 (str "> 5,000") (Some 0))))
                  recs (str "p1")
    /\ recs <> JArr [].
Proof.
  eexists _, _, _. split; [vm_compute; reflexivity|].
  split; [reflexivity|].
  eapply (recommendations_never_empty Sample.parse
            (Sample.request (Sample.profile 5 5 (str "> 5,000") (Some 0)))
            (Sample.env (Sample.answer []) Sample.inserted Sample.stored));
    vm_compute; reflexivity.
Defined.

(** ** The narrative step on a JSON answer *)

(** X14: when the raw text parses to a JSON object, the narrative is its
    [narrative] member and the recommendations its [recommendations]
    member, as they are; a missing or null [narrative] is replaced by the
    whole raw text, a missing or null [recommendations] by the empty list;
    nothing is logged. *)
Theorem json_object_answer (JSON_parse : jsstring -> option json)
    (resp : Completion) (fields : list (jsstring * json)) :
  JSON_parse (rawText resp) = Some (JObj fields) ->
  let out := narrate JSON_parse (GenerateReturns resp) in
  (forall v, own fields (str "narrative") = Some v -> v <> JNull ->
     llmNarrative (fst out) = v)
  /\ (own fields (str "narrative") = None
      \/ own fields (str "narrative") = Some JNull ->
      llmNarrative (fst out) = JStr (rawText resp))
  /\ (forall v, own fields (str "recommendations") = Some v -> v <> JNull ->
        llmRecommendations (fst out) = v)
  /\ (own fields (str "recommendations") = None
      \/ own fields (str "recommendations") = Some JNull ->
      llmRecommendations (fst out) = JArr [])
  /\ snd out = [].
Proof.
  intros Hp out. unfold out, narrate. rewrite Hp. cbn [fst snd llmNarrative
    llmRecommendations prop].
  repeat split.
  - intros v -> Hv. now destruct v.
  - intros [-> | ->]; reflexivity.
  - intros v -> Hv. now destruct v.
  - intros [-> | ->]; reflexivity.
Qed.

Lemma json_object_answer_witness :
  llmNarrative (fst (narrate Sample.parse (Sample.answer Sample.six_text)))
  = JStr (str "x").
Proof.
  apply (proj1 (json_object_answer Sample.parse
                  {| text := Some Sample.six_text; choices := None |}
                  _ eq_refl));
    [reflexivity | discriminate].
Defined.

(** X15: a raw text that parses to JSON [null] is handled like one that does
    not parse; one that parses to a number, a boolean, a string or an array
    gives the whole raw text as narrative and no recommendations. *)
Theorem json_scalar_answer (JSON_parse : jsstring -> option json)
    (resp : Completion) (v : json) :
  JSON_parse (rawText resp) = Some v ->
  (forall fields, v <> JObj fields) ->
  fst (narrate JSON_parse (GenerateReturns resp))
  = match v with
    | JNull =>
        {| llmNarrative := JStr (rawText resp);
           llmRecommendations :=
             JArr (map JStr (fallbackRecommendations (rawText resp))) |}
    | _ =>
        {| llmNarrative := JStr (rawText resp);
           llmRecommendations := JArr [] |}
    end.
Proof.
  intros Hp Hv. unfold narrate. rewrite Hp.
  destruct v; try reflexivity. now destruct (Hv fields).
Qed.

Lemma json_scalar_answer_witness :
  fst (narrate (fun _ => Some (JNum 42)) (Sample.answer (str "42")))
  = {| llmNarrative := JStr (str "42"); llmRecommendations := JArr [] |}.
Proof.
  apply (json_scalar_answer (fun _ => Some (JNum 42))
           {| text := Some (str "42"); choices := None |} (JNum 42));
    [reflexivity | discriminate].
Defined.

Lemma array_length_truthy (l : list json) :
  truthy (prop (JArr l) (str "length"))
  = match l with [] => false | _ :: _ => true end.
Proof.
  unfold prop. change (jsstring_eqb (str "length") (str "length")) with true.
  cbv iota. now destruct l.
Qed.

Lemma fallback_worth_storing (rawText : jsstring) :
  Run.worthStoring
    {| llmNarrative := JStr rawText;
       llmRecommendations := JArr (map JStr (fallbackRecommendations rawText)) |}
  = nonempty rawText.
Proof.
  unfold Run.worthStoring. cbn [llmNarrative llmRecommendations].
  destruct rawText as [|c s]; [reflexivity|]. reflexivity.
Qed.

(** X16: when the service answers prose (text that does not parse as JSON),
    the profile row keeps the whole text as narrative, an LLM record is
    issued exactly when the text is not empty, and the response carries the
    fallback recommendations, or the stand-in when there is none; this for
    a request that has passed the gates, whose weights query has resolved
    and whose profile row is stored. *)
Theorem prose_answer_stored (JSON_parse : jsstring -> option json)
    (req : Request) (env : Env) (user : User) (data_id : jsstring)
    (resp : Completion) :
  authenticated req env user ->
  select_weights_rejects env = None ->
  (forall row, insert_profiles env row = InsertReturns (Some data_id) None) ->
  (forall prompt, deepseekGenerate env prompt = GenerateReturns resp) ->
  JSON_parse (rawText resp) = None ->
  let recs := fallbackRecommendations (rawText resp) in
  let llm := {| llmNarrative := JStr (rawText resp);
                llmRecommendations := JArr (map JStr recs) |} in
  exists r w,
    serve JSON_parse req env = (inl r, w)
    /\ writes w
       = IntoProfiles (Run.profileRow req env user llm)
         :: (if nonempty (rawText resp)
             then [IntoLLMOutputs (Run.llmOutputRow req env llm)] else [])
    /\ exists s t ex,
         body r = ScoreBody true s t ex
                    (match recs with
                     | [] => Run.placeholder
                     | _ :: _ => JArr (map JStr recs)
                     end) data_id.
Proof.
  intros Ha Hq Hins Hg Hp recs llm.
  destruct (stored_run JSON_parse req env user data_id llm [] Ha Hq Hins)
    as (failed & Hs & _).
  { rewrite Hg. unfold narrate. now rewrite Hp. }
  rewrite Hs. subst llm recs. eexists _, _. split; [reflexivity|].
  cbn [writes body]. rewrite fallback_worth_storing. split; [reflexivity|].
  eexists _, _, _. f_equal.
  cbn [llmRecommendations]. rewrite array_length_truthy.
  now destruct (fallbackRecommendations (rawText resp)).
Qed.

Lemma prose_answer_stored_witness :
  exists r w,
    serve Sample.parse
      (Sample.request (Sample.profile 5 5 (str "> 5,000") (Some 0)))
      (Sample.env (Sample.answer []) Sample.inserted Sample.stored)
    = (inl r, w)
    /\ length (writes w) = 1%nat.
Proof.
  destruct (prose_answer_stored Sample.parse
              (Sample.request (Sample.profile 5 5 (str "> 5,000") (Some 0)))
              (Sample.env (Sample.answer []) Sample.inserted Sample.stored)
              {| uid := str "u1" |} (str "p1")
              {| text := Some []; choices := None |})
    as (r & w & Hs & Hw & _).
  - apply sample_authenticated.
  - reflexivity.
  - intros row. reflexivity.
  - intros prompt. reflexivity.
  - reflexivity.
  - exists r, w. split; [exact Hs|]. now rewrite Hw.
Defined.

(** ** Ranges and monotonicity of the factors and of the score *)

Lemma networkRisk_values (p : Payload) :
  inherited (linkedinNetworkSize p) = false ->
  exists n : Z, networkRisk p = VNum (of_Z n) /\ (10 <= n <= 70)%Z.
Proof.
  intros Hin. unfold networkRisk, get.
  destruct (decide (linkedinNetworkSize p = str "< 500")) as [->|H1];
    [exists 70%Z; split; [vm_compute; reflexivity | lia]|].
  destruct (decide (linkedinNetworkSize p = str "500" ++ 8211%N :: str "1,000"))
    as [->|H2]; [exists 50%Z; split; [vm_compute; reflexivity | lia]|].
  destruct (decide (linkedinNetworkSize p = str "1,001" ++ 8211%N :: str "5,000"))
    as [->|H3]; [exists 30%Z; split; [vm_compute; reflexivity | lia]|].
  destruct (decide (linkedinNetworkSize p = str "> 5,000")) as [->|H4];
    [exists 10%Z; split; [vm_compute; reflexivity | lia]|].
  rewrite networkMap_miss by assumption. rewrite Hin.
  exists 60%Z. split; [reflexivity | lia].
Qed.

Lemma mobilityRisk_values (p : Payload) :
  exists n : Z, mobilityRisk p = of_Z n /\ (10 <= n <= 40)%Z.
Proof.
  unfold mobilityRisk. destruct (jsstring_eqb _ _);
    [exists 10%Z | exists 40%Z]; split; (reflexivity || lia).
Qed.

Lemma plateauRisk_values (p : Payload) :
  exists n : Z, plateauRisk p = of_Z n /\ (20 <= n <= 40)%Z.
Proof.
  unfold plateauRisk. destruct (_ >=? _)%js;
    [exists 40%Z | exists 20%Z]; split; (reflexivity || lia).
Qed.

Lemma noticeRisk_values (p : Payload) :
  exists n : Z, noticeRisk p = of_Z n /\ (10 <= n <= 80)%Z.
Proof.
  destruct (noticeRisk_cases p _ eq_refl)
    as [[_ ->]|[[_ ->]|[[_ ->]|[[_ ->]|[[_ ->]|[_ ->]]]]]];
    eexists; (split; [reflexivity | lia]).
Qed.

Lemma inject_Z_range (a n b : Z) :
  (a <= n <= b)%Z -> inject_Z a <= inject_Z n <= inject_Z b.
Proof. intros [? ?]. split; now rewrite <- Zle_Qle. Qed.

(** X17: for a proficiency and a rating within [0,5] and a bucket that does
    not name an inherited member, all six factors are numbers: skills and
    performance within [0,100], network within [10,70], mobility within
    [10,40], notice within [10,80] and plateau within [20,40]. *)
Theorem factors_in_range (p : Payload) :
  0 <= skillProficiencyAvg p <= 5 ->
  0 <= performanceRating p <= 5 ->
  inherited (linkedinNetworkSize p) = false ->
  exists s pf n m t l : Q,
    factors p = {| d_skillsRisk := Fin s; d_performanceRisk := Fin pf;
                   d_networkRisk := VNum (Fin n); d_mobilityRisk := Fin m;
                   d_noticeRisk := Fin t; d_plateauRisk := Fin l |}
    /\ 0 <= s <= 100 /\ 0 <= pf <= 100 /\ 10 <= n <= 70
    /\ 10 <= m <= 40 /\ 10 <= t <= 80 /\ 20 <= l <= 40.
Proof.
  intros Hs Hp Hin.
  destruct (networkRisk_values p Hin) as (n & Hn & Hnr).
  destruct (mobilityRisk_values p) as (m & Hm & Hmr).
  destruct (noticeRisk_values p) as (t & Ht & Htr).
  destruct (plateauRisk_values p) as (l & Hl & Hlr).
  exists (100 - (skillProficiencyAvg p / 5) * 100),
         (100 - (performanceRating p / 5) * 100),
         (inject_Z n), (inject_Z m), (inject_Z t), (inject_Z l).
  split.
  { unfold factors. rewrite Hn, Hm, Ht, Hl. reflexivity. }
  split; [now apply scaled_in_range|]. split; [now apply scaled_in_range|].
  split; [exact (inject_Z_range 10 n 70 Hnr)|].
  split; [exact (inject_Z_range 10 m 40 Hmr)|].
  split; [exact (inject_Z_range 10 t 80 Htr)|].
  exact (inject_Z_range 20 l 40 Hlr).
Qed.

Lemma factors_in_range_witness :
  exists s pf n m t l : Q,
    factors (Sample.profile 4 3 (str "unknown") (Some 45))
    = {| d_skillsRisk := Fin s; d_performanceRisk := Fin pf;
         d_networkRisk := VNum (Fin n); d_mobilityRisk := Fin m;
         d_noticeRisk := Fin t; d_plateauRisk := Fin l |}
    /\ 0 <= s <= 100 /\ 0 <= pf <= 100 /\ 10 <= n <= 70
    /\ 10 <= m <= 40 /\ 10 <= t <= 80 /\ 20 <= l <= 40.
Proof.
  apply (factors_in_range (Sample.profile 4 3 (str "unknown") (Some 45)));
    [simpl; lra | simpl; lra | reflexivity].
Defined.

Lemma term_bounds (f w lo hi : Q) :
  lo <= f <= hi -> 0 <= w -> lo * w <= f * w <= hi * w.
Proof.
  intros [Hlo Hhi] Hw. split; now apply Qmult_le_compat_r.
Qed.

Lemma round_between (x : Q) (a b : Z) :
  inject_Z a - (1 # 2) <= x -> x < inject_Z b + (1 # 2) ->
  (a <= Qfloor (x + (1 # 2)) <= b)%Z.
Proof.
  intros Ha Hb. split.
  - rewrite <- (Qfloor_Z a). apply Qfloor_resp_le. lra.
  - apply Z.lt_succ_r. rewrite Zlt_Qlt.
    apply Qle_lt_trans with (x + (1 # 2)); [apply Qfloor_le|].
    unfold Z.succ. rewrite inject_Z_plus. change (inject_Z 1) with 1. lra.
Qed.

Lemma score_of_raw (d : FactorSet) (w : Weights) (r : Q) :
  raw d w = Fin r ->
  score d w = of_Z (Z.max 0 (Z.min 100 (Qfloor (r + (1 # 2))))).
Proof. intros H. unfold score. rewrite H. apply clamp_of_Z. Qed.

(** On doubles the raw score can exceed 100 although the factors are within
    [0,100] and the weights, non-negative, sum to 1 with or without
    rounding: three factors of 100 with the weights below give a raw score
    one unit in the last place above 100, and the score is 100. *)
Lemma raw_above_100_on_doubles :
  let w1 := S754_finite false 0x18dcb2edbfaf00 (-57) in
  let w2 := S754_finite false 0x1b96509eabce30 (-53) in
  let w3 := S754_finite false 0x16df2193c1b700 (-56) in
  let d := {| Double.d_skillsRisk := Double.of_Z 100;
              Double.d_performanceRisk := Double.of_Z 100;
              Double.d_networkRisk := Double.of_Z 100;
              Double.d_mobilityRisk := Double.of_Z 0;
              Double.d_noticeRisk := Double.of_Z 0;
              Double.d_plateauRisk := Double.of_Z 0 |} in
  let w := {| Double.skills := w1; Double.performance := w2;
              Double.network := w3; Double.mobility := Double.of_Z 0;
              Double.notice := Double.of_Z 0;
              Double.plateau := Double.of_Z 0 |} in
  Double.add (Double.add w1 w2) w3 = Double.of_Z 1
  /\ (exists sum : Q,
        Spec.exact_dot_product [(w1, Double.of_Z 1); (w2, Double.of_Z 1);
                                (w3, Double.of_Z 1)] = Some sum
        /\ sum == 1)
  /\ (exists r : Q, Double.value (Double.raw d w) = Some r /\ 100 < r)
  /\ Double.Math_round (Double.raw d w) = Double.IInt 100
  /\ Double.score d w = Double.IInt 100.
Proof.
  split; [vm_compute; reflexivity|].
  split; [eexists; split; [vm_compute; reflexivity | reflexivity]|].
  split; [eexists; split; [vm_compute; reflexivity | reflexivity]|].
  split; vm_compute; reflexivity.
Qed.

(** X18: with six factors within [0,100] and non-negative weights that sum
    to 1, the clamp changes nothing: the score is the raw score rounded, an
    integer between 0 and 100. *)
Theorem normalized_weights_need_no_clamp
    (s p n m t l ws wp wn wm wt wl : Q) :
  0 <= s <= 100 -> 0 <= p <= 100 -> 0 <= n <= 100 ->
  0 <= m <= 100 -> 0 <= t <= 100 -> 0 <= l <= 100 ->
  0 <= ws -> 0 <= wp -> 0 <= wn -> 0 <= wm -> 0 <= wt -> 0 <= wl ->
  ws + wp + wn + wm + wt + wl == 1 ->
  let d := {| d_skillsRisk := Fin s; d_performanceRisk := Fin p;
              d_networkRisk := VNum (Fin n); d_mobilityRisk := Fin m;
              d_noticeRisk := Fin t; d_plateauRisk := Fin l |} in
  let w := {| skills := Fin ws; performance := Fin wp; network := Fin wn;
              mobility := Fin wm; notice := Fin wt; plateau := Fin wl |} in
  score d w = Math_round (raw d w)
  /\ exists z : Z, score d w = of_Z z /\ (0 <= z <= 100)%Z.
Proof.
  intros Hs Hp Hn Hm Ht Hl Hws Hwp Hwn Hwm Hwt Hwl Hsum d w.
  set (r := s * ws + p * wp + n * wn + m * wm + t * wt + l * wl).
  assert (Hraw : raw d w = Fin r) by reflexivity.
  destruct (term_bounds s ws 0 100 Hs Hws).
  destruct (term_bounds p wp 0 100 Hp Hwp).
  destruct (term_bounds n wn 0 100 Hn Hwn).
  destruct (term_bounds m wm 0 100 Hm Hwm).
  destruct (term_bounds t wt 0 100 Ht Hwt).
  destruct (term_bounds l wl 0 100 Hl Hwl).
  assert (Hr : 0 <= r <= 100) by (subst r; split; lra).
  pose proof (round_between r 0 100
                ltac:(change (inject_Z 0) with 0; lra)
                ltac:(change (inject_Z 100) with 100; lra)) as Hround.
  rewrite (score_of_raw d w r Hraw), Hraw. unfold Math_round.
  split; [f_equal; lia|].
  eexists. split; [reflexivity|]. lia.
Qed.

Lemma normalized_weights_need_no_clamp_witness :
  let d := {| d_skillsRisk := Fin 20; d_performanceRisk := Fin 40;
              d_networkRisk := VNum (Fin 70); d_mobilityRisk := Fin 40;
              d_noticeRisk := Fin 50; d_plateauRisk := Fin 20 |} in
  score d DEFAULT_WEIGHTS = Math_round (raw d DEFAULT_WEIGHTS)
  /\ exists z : Z, score d DEFAULT_WEIGHTS = of_Z z /\ (0 <= z <= 100)%Z.
Proof.
  apply (normalized_weights_need_no_clamp 20 40 70 40 50 20
           0.28 0.22 0.18 0.12 0.12 0.08);
    simpl; first [lra | reflexivity].
Defined.

(** X19: with the default weights, a profile whose proficiency and rating
    are within [0,5] and whose bucket does not name an inherited member
    gets an integer score between 6 and 80: never 0, never 100. *)
Theorem default_score_bounds (p : Payload) :
  0 <= skillProficiencyAvg p <= 5 ->
  0 <= performanceRating p <= 5 ->
  inherited (linkedinNetworkSize p) = false ->
  exists z : Z,
    score (factors p) DEFAULT_WEIGHTS = of_Z z /\ (6 <= z <= 80)%Z.
Proof.
  intros Hs Hp Hin.
  destruct (networkRisk_values p Hin) as (n & Hn & Hnr).
  destruct (mobilityRisk_values p) as (m & Hm & Hmr).
  destruct (noticeRisk_values p) as (t & Ht & Htr).
  destruct (plateauRisk_values p) as (l & Hl & Hlr).
  apply inject_Z_range in Hnr, Hmr, Htr, Hlr.
  pose proof (proj2 (scaled_in_range _) Hs) as Hsr.
  pose proof (proj2 (scaled_in_range _) Hp) as Hpr.
  set (r := (100 - (skillProficiencyAvg p / 5) * 100) * 0.28
            + (100 - (performanceRating p / 5) * 100) * 0.22
            + inject_Z n * 0.18 + inject_Z m * 0.12 + inject_Z t * 0.12
            + inject_Z l * 0.08).
  assert (Hraw : raw (factors p) DEFAULT_WEIGHTS = Fin r).
  { unfold raw, factors. cbn [d_skillsRisk d_performanceRisk d_networkRisk
      d_mobilityRisk d_noticeRisk d_plateauRisk].
    rewrite Hn, Hm, Ht, Hl. reflexivity. }
  rewrite (score_of_raw _ _ _ Hraw). eexists. split; [reflexivity|].
  subst r.
  set (a := 100 - (skillProficiencyAvg p / 5) * 100) in *.
  set (b := 100 - (performanceRating p / 5) * 100) in *.
  set (qn := inject_Z n) in *. set (qm := inject_Z m) in *.
  set (qt := inject_Z t) in *. set (ql := inject_Z l) in *.
  clearbody a b qn qm qt ql.
  destruct Hnr, Hmr, Htr, Hlr, Hsr, Hpr.
  change (inject_Z 10) with 10 in *. change (inject_Z 70) with 70 in *.
  change (inject_Z 40) with 40 in *. change (inject_Z 80) with 80 in *.
  change (inject_Z 20) with 20 in *.
  assert (Hb : (6 <= Qfloor (a * 0.28 + b * 0.22 + qn * 0.18 + qm * 0.12
                             + qt * 0.12 + ql * 0.08 + (1 # 2))%Q <= 80)%Z).
  { apply round_between.
    - change (inject_Z 6) with 6. lra.
    - change (inject_Z 80) with 80. lra. }
  lia.
Qed.

Lemma default_score_bounds_witness :
  exists z : Z,
    score (factors (Sample.profile 0 0 (str "< 500") (Some 120)))
      DEFAULT_WEIGHTS = of_Z z
    /\ (6 <= z <= 80)%Z.
Proof.
  apply (default_score_bounds (Sample.profile 0 0 (str "< 500") (Some 120)));
    [simpl; lra | simpl; lra | reflexivity].
Defined.





Lemma lte_of_Z (a b : Z) : (of_Z a <=? of_Z b)%js = (a <=? b)%Z.
Proof. unfold lte, of_Z. apply Qle_bool_inject_Z. Qed.

(** X21: each input moves its factor one way only: a higher proficiency or
    rating never raises the skills or performance risk, a longer notice
    period never lowers the notice risk, and more experience never lowers
    the plateau risk. *)
Theorem factors_monotone (p p' : Payload) :
  (skillProficiencyAvg p <= skillProficiencyAvg p' ->
   (skillsRisk p' <=? skillsRisk p)%js = true)
  /\ (performanceRating p <= performanceRating p' ->
      (performanceRisk p' <=? performanceRisk p)%js = true)
  /\ (nullish (noticePeriodDays p) 30 <= nullish (noticePeriodDays p') 30 ->
      (noticeRisk p <=? noticeRisk p')%js = true)
  /\ (totalExperience p <= totalExperience p' ->
      (plateauRisk p <=? plateauRisk p')%js = true).
Proof.
  split; [|split; [|split]].
  - intros H. unfold skillsRisk. cbn. apply Qle_bool_iff.
    rewrite !scaled_linear. lra.
  - intros H. unfold performanceRisk. cbn. apply Qle_bool_iff.
    rewrite !scaled_linear. lra.
  - intros H.
    destruct (noticeRisk_cases p _ eq_refl)
      as [[? ->]|[[? ->]|[[? ->]|[[? ->]|[[? ->]|[? ->]]]]]];
    destruct (noticeRisk_cases p' _ eq_refl)
      as [[? ->]|[[? ->]|[[? ->]|[[? ->]|[[? ->]|[? ->]]]]]];
    rewrite lte_of_Z; try reflexivity; exfalso;
    change (inject_Z 90) with 90 in *; change (inject_Z 60) with 60 in *;
    change (inject_Z 30) with 30 in *; change (inject_Z 15) with 15 in *;
    change (inject_Z 7) with 7 in *; lra.
  - intros H. unfold plateauRisk.
    destruct (Fin (totalExperience p) >=? of_Z 12)%js eqn:H1;
      destruct (Fin (totalExperience p') >=? of_Z 12)%js eqn:H2;
      try reflexivity.
    apply ge_of_Z in H1. apply ge_of_Z_false in H2. exfalso. lra.
Qed.

Lemma factors_monotone_witness :
  (skillsRisk (Sample.profile 4 3 (str "< 500") (Some 10))
   <=? skillsRisk (Sample.profile 2 3 (str "< 500") (Some 10)))%js = true
  /\ (noticeRisk (Sample.profile 2 3 (str "< 500") (Some 10))
      <=? noticeRisk (Sample.profile 2 3 (str "< 500") (Some 95)))%js = true.
Proof.
  split.
  - apply (proj1 (factors_monotone
                    (Sample.profile 2 3 (str "< 500") (Some 10))
                    (Sample.profile 4 3 (str "< 500") (Some 10)))).
    simpl; lra.
  - apply (proj1 (proj2 (proj2 (factors_monotone
                    (Sample.profile 2 3 (str "< 500") (Some 10))
                    (Sample.profile 2 3 (str "< 500") (Some 95)))))).
    simpl; lra.
Defined.

Lemma Qle_bool_false (x y : Q) : Qle_bool x y = false <-> y < x.
Proof.
  rewrite <- not_true_iff_false, Qle_bool_iff. split.
  - apply Qnot_le_lt.
  - apply Qlt_not_le.
Qed.

(** X22: for bounds [a <= b], [clamp] returns a number within [a, b], equal
    to its argument when that is already within the bounds; with the bounds
    the wrong way round it returns the first bound; a NaN argument stays
    NaN. *)
Theorem clamp_within_bounds (v a b : Q) :
  (a <= b ->
   exists c, clamp (Fin v) (Fin a) (Fin b) = Fin c /\ a <= c <= b
             /\ (a <= v <= b -> c == v))
  /\ (b < a -> clamp (Fin v) (Fin a) (Fin b) = Fin a)
  /\ clamp NaN (Fin a) (Fin b) = NaN.
Proof.
  unfold clamp, Math_max, Math_min.
  split; [|split; [|reflexivity]].
  - intros Hab. eexists. split; [reflexivity|].
    destruct (Qle_bool b v) eqn:Hbv;
      [apply Qle_bool_iff in Hbv | apply Qle_bool_false in Hbv].
    + rewrite (proj2 (Qle_bool_iff a b) Hab).
      split; [split; lra|]. intros [? ?]. lra.
    + destruct (Qle_bool a v) eqn:Hav;
        [apply Qle_bool_iff in Hav | apply Qle_bool_false in Hav].
      * split; [split; lra|]. intros _. reflexivity.
      * split; [split; lra|]. intros [? ?]. lra.
  - intros Hba.
    destruct (Qle_bool b v) eqn:Hbv.
    + now rewrite (proj2 (Qle_bool_false a b) Hba).
    + apply Qle_bool_false in Hbv.
      assert (Hva : v < a) by lra.
      now rewrite (proj2 (Qle_bool_false a v) Hva).
Qed.

Lemma clamp_within_bounds_witness :
  exists c, clamp (Fin 7) (Fin 0) (Fin 5) = Fin c /\ 0 <= c <= 5.
Proof.
  destruct (proj1 (clamp_within_bounds 7 0 5)) as (c & Hc & Hr & _);
    [lra|].
  exists c. split; [exact Hc | exact Hr].
Defined.

Lemma Math_round_of_Z (z : Z) : Math_round (of_Z z) = of_Z z.
Proof.
  unfold Math_round, of_Z. f_equal. f_equal.
  pose proof (round_between (inject_Z z) z z) as H.
  assert (z <= Qfloor (inject_Z z + (1 # 2)) <= z)%Z by (apply H; lra).
  lia.
Qed.

(** X23: when the bucket does not name an inherited member, the six numbers
    written into the prompt are the six values of the explainability list,
    in the same order: rounding changes nothing of the four integer
    factors. *)
Theorem prompt_matches_explainability (p : Payload) :
  inherited (linkedinNetworkSize p) = false ->
  let prompt := buildDeepseekPrompt p (factors p) in
  map value_ (explainability p (factors p))
  = map VNum [ pr_SkillsRisk prompt; pr_PerformanceRisk prompt;
               pr_NetworkRisk prompt; pr_MobilityRisk prompt;
               pr_NoticeRisk prompt; pr_PlateauRisk prompt ].
Proof.
  intros Hin prompt.
  destruct (networkRisk_values p Hin) as (n & Hn & _).
  destruct (mobilityRisk_values p) as (m & Hm & _).
  destruct (noticeRisk_values p) as (t & Ht & _).
  destruct (plateauRisk_values p) as (l & Hl & _).
  unfold prompt, buildDeepseekPrompt, explainability, factors.
  cbn [map value_ pr_SkillsRisk pr_PerformanceRisk pr_NetworkRisk
       pr_MobilityRisk pr_NoticeRisk pr_PlateauRisk
       d_skillsRisk d_performanceRisk d_networkRisk d_mobilityRisk
       d_noticeRisk d_plateauRisk].
  rewrite Hn, Hm, Ht, Hl. cbn [ToNumber].
  now rewrite !Math_round_of_Z.
Qed.

Lemma prompt_matches_explainability_witness :
  map value_
    (explainability (Sample.profile 4 3 (str "< 500") (Some 45))
       (factors (Sample.profile 4 3 (str "< 500") (Some 45))))
  = map VNum [ of_Z 20; of_Z 40; of_Z 70; of_Z 10; of_Z 50; of_Z 20 ].
Proof.
  rewrite (prompt_matches_explainability
             (Sample.profile 4 3 (str "< 500") (Some 45)) eq_refl).
  reflexivity.
Defined.

Lemma inherited_not_own (k : jsstring) :
  inherited k = true -> networkMap !! k = None.
Proof.
  unfold inherited. rewrite existsb_exists. intros (x & Hx & Hk).
  unfold jsstring_eqb in Hk. apply bool_decide_eq_true in Hk. subst x.
  unfold Object_prototype in Hx. simpl in Hx.
  repeat (destruct Hx as [<- | Hx]; [vm_compute; reflexivity|]).
  destruct Hx.
Qed.

(** X24: a bucket that names a member every object inherits (such as
    'constructor' or 'toString') makes the network factor that member, not
    a number: for every profile and weights the score is then NaN, and the
    tier, failing both comparisons, is High. *)
Theorem inherited_bucket_scores_NaN (p : Payload) (w : Weights) :
  inherited (linkedinNetworkSize p) = true ->
  networkRisk p = VInherited (linkedinNetworkSize p)
  /\ score (factors p) w = NaN
  /\ tier (score (factors p) w) = High.
Proof.
  intros Hin.
  assert (Hn : networkRisk p = VInherited (linkedinNetworkSize p)).
  { unfold networkRisk, get. rewrite (inherited_not_own _ Hin), Hin.
    reflexivity. }
  split; [exact Hn|].
  assert (Hs : score (factors p) w = NaN).
  { unfold score, raw, factors.
    cbn [d_skillsRisk d_performanceRisk d_networkRisk d_mobilityRisk
         d_noticeRisk d_plateauRisk].
    rewrite Hn. cbn [ToNumber].
    destruct (mobilityRisk_values p) as (m & -> & _).
    destruct (noticeRisk_values p) as (t & -> & _).
    destruct (plateauRisk_values p) as (l & -> & _).
    destruct w as [[?|] [?|] [?|] [?|] [?|] [?|]]; reflexivity. }
  split; [exact Hs|]. now rewrite Hs.
Qed.

Lemma inherited_bucket_scores_NaN_witness :
  score (factors (Sample.profile 5 5 (str "constructor") None)) DEFAULT_WEIGHTS
  = NaN.
Proof.
  apply (inherited_bucket_scores_NaN
           (Sample.profile 5 5 (str "constructor") None) DEFAULT_WEIGHTS).
  reflexivity.
Defined.

(** ** The admin check *)

Lemma adminEmails_entries (env : CheckAdmin.AdminEnv) (e : jsstring) :
  In e (CheckAdmin.adminEmails env) ->
  e <> []
  /\ Text.starts_clean e = true /\ Text.starts_clean (rev e) = true
  /\ ~ In CheckAdmin.COMMA e
  /\ exists part,
       In part (Text.split CheckAdmin.COMMA
                  (nullish (CheckAdmin.ADMIN_EMAILS env) []))
       /\ e = trim part.
Proof.
  unfold CheckAdmin.adminEmails. intros He.
  apply List.filter_In in He. destruct He as [He Hne].
  apply in_map_iff in He. destruct He as (part & <- & Hpart).
  split; [intros H; rewrite H in Hne; discriminate|].
  destruct (trim_clean part) as [Hh Hl].
  split; [exact Hh|]. split; [exact Hl|].
  split; [|now exists part].
  apply trim_keeps_free.
  pose proof (split_free CheckAdmin.COMMA
                (nullish (CheckAdmin.ADMIN_EMAILS env) [])) as Hfree.
  rewrite List.Forall_forall in Hfree. now apply Hfree.
Qed.

Lemma array_includes_In (l : list jsstring) (x : jsstring) :
  CheckAdmin.array_includes l x = true <-> In x l.
Proof.
  unfold CheckAdmin.array_includes. rewrite existsb_exists. split.
  - intros (y & Hy & Hxy). unfold jsstring_eqb in Hxy.
    apply bool_decide_eq_true in Hxy. now subst y.
  - intros H. exists x. split; [exact H|].
    unfold jsstring_eqb. now apply bool_decide_eq_true.
Qed.

(** X25: the caller is an admin exactly when a user was resolved and either
    the user's e-mail is, to the letter, one of the comma-separated entries
    of ADMIN_EMAILS once trimmed, or the user's [app_users] row has
    [is_admin] set to the boolean [true]; without a resolved user the answer
    is [false] whatever the list and the table hold. *)
Theorem checkAdmin_grants (env : CheckAdmin.AdminEnv) :
  CheckAdmin.checkAdmin env = true <->
  exists user,
    CheckAdmin.auth_getUser env = Some (Some user)
    /\ ((exists e part,
           CheckAdmin.au_email user = Some e /\ e <> []
           /\ In part (Text.split CheckAdmin.COMMA
                         (nullish (CheckAdmin.ADMIN_EMAILS env) []))
           /\ trim part = e)
        \/ (exists row,
              CheckAdmin.select_app_user env (CheckAdmin.au_id user) = Some row
              /\ CheckAdmin.is_admin row = JBool true)).
Proof.
  unfold CheckAdmin.checkAdmin.
  destruct (CheckAdmin.auth_getUser env) as [[user|]|]; cbn [chain];
    [|split; [discriminate | intros (u & H & _); discriminate]
     |split; [discriminate | intros (u & H & _); discriminate]].
  rewrite orb_true_iff, array_includes_In. split.
  - intros [Hin | Hflag]; exists user; (split; [reflexivity|]).
    + left. destruct (adminEmails_entries env _ Hin)
        as (Hne & _ & _ & _ & part & Hpart & He).
      destruct (CheckAdmin.au_email user) as [e|]; cbn [nullish] in *;
        [|now destruct Hne].
      exists e, part. auto.
    + right. destruct (CheckAdmin.select_app_user env _) as [row|];
        cbn [chain nullish] in Hflag; [|discriminate].
      exists row. split; [reflexivity|].
      destruct (CheckAdmin.is_admin row) as [|[|]| | | |]; try discriminate.
      reflexivity.
  - intros (u & Hu & H). inversion Hu; subst u; clear Hu.
    destruct H as [(e & part & He & Hne & Hpart & Ht) | (row & Hrow & Hflag)].
    + left. rewrite He. cbn [nullish]. unfold CheckAdmin.adminEmails.
      apply List.filter_In. split.
      * apply in_map_iff. now exists part.
      * destruct e; [now destruct Hne | reflexivity].
    + right. rewrite Hrow. cbn [chain nullish]. now rewrite Hflag.
Qed.

(** X26: a user without an e-mail, or with an empty one, is never an admin
    through ADMIN_EMAILS, however that variable is written: only the
    [is_admin] flag of the [app_users] row can make such a user an admin. *)
Theorem checkAdmin_without_email (env : CheckAdmin.AdminEnv)
    (user : CheckAdmin.AuthUser) :
  CheckAdmin.auth_getUser env = Some (Some user) ->
  CheckAdmin.au_email user = None \/ CheckAdmin.au_email user = Some [] ->
  CheckAdmin.checkAdmin env
  = CheckAdmin.is_true
      (nullish (chain (CheckAdmin.select_app_user env (CheckAdmin.au_id user))
                  (fun a => Some (CheckAdmin.is_admin a))) JNull).
Proof.
  intros Hu He. unfold CheckAdmin.checkAdmin. rewrite Hu. cbn [chain].
  assert (Hno : CheckAdmin.array_includes (CheckAdmin.adminEmails env)
                  (nullish (CheckAdmin.au_email user) []) = false).
  { apply not_true_iff_false. rewrite array_includes_In. intros Hin.
    destruct (adminEmails_entries env _ Hin) as (Hne & _).
    destruct He as [He | He]; rewrite He in Hne; now apply Hne. }
  now rewrite Hno.
Qed.

Lemma checkAdmin_grants_witness :
  CheckAdmin.checkAdmin
    {| CheckAdmin.auth_getUser :=
         Some (Some {| CheckAdmin.au_id := str "u1";
                       CheckAdmin.au_email := Some (str "ada@example.org") |});
       CheckAdmin.select_app_user := fun _ => None;
       CheckAdmin.ADMIN_EMAILS :=
         Some (str "bob@example.org, ada@example.org ,") |}
  = true.
Proof.
  apply (proj2 (checkAdmin_grants _)).
  eexists. split; [reflexivity|]. left.
  exists (str "ada@example.org"), (str " ada@example.org ").
  split; [reflexivity|]. split; [discriminate|].
  split; [vm_compute; tauto | reflexivity].
Defined.

Lemma checkAdmin_without_email_witness :
  CheckAdmin.checkAdmin
    {| CheckAdmin.auth_getUser :=
         Some (Some {| CheckAdmin.au_id := str "u1";
                       CheckAdmin.au_email := None |});
       CheckAdmin.select_app_user :=
         fun _ => Some {| CheckAdmin.is_admin := JStr (str "true") |};
       CheckAdmin.ADMIN_EMAILS := Some (str ",, ,") |}
  = false.
Proof.
  etransitivity.
  - apply (checkAdmin_without_email _
             {| CheckAdmin.au_id := str "u1"; CheckAdmin.au_email := None |});
      [reflexivity | left; reflexivity].
  - reflexivity.
Defined.

(** ** Two failures after the gates *)


(** X28: when the [profiles] insert returns neither a row nor an error, the
    request is answered 500 from the outer [catch] although the profile row
    was issued, and after the LLM record, if any, was issued too; this for a
    request that has passed the gates and whose weights query has
    resolved. *)
Theorem insert_without_row_fails_late (JSON_parse : jsstring -> option json)
    (req : Request) (env : Env) (user : User) :
  authenticated req env user ->
  select_weights_rejects env = None ->
  (forall row, insert_profiles env row = InsertReturns None None) ->
  exists llm w,
    serve JSON_parse req env
    = (inl {| status := 500; body := ErrorBody (TypeErrorMessage "id") |}, w)
    /\ writes w
       = IntoProfiles (Run.profileRow req env user llm)
         :: (if Run.worthStoring llm
             then [IntoLLMOutputs (Run.llmOutputRow req env llm)] else [])
    /\ In (Uncaught (TypeError "id")) (console w).
Proof.
  intros Ha Hq Hins. apply authenticated_run in Ha.
  destruct Ha as (Hm & Ht & Hj & ud & Hu & Hc & Hd).
  unfold serve, handler. rewrite Hm, Ht, Hj, Hu. run.
  rewrite Hc, Hd, Hq. run.
  destruct (narrate _ _) as [llm logged] eqn:Hn. run.
  rewrite log_all_run. run. rewrite Hins. run.
  fold (Run.worthStoring llm). exists llm.
  destruct (Run.worthStoring llm) eqn:Hw; run.
  - destruct (insert_llm_outputs env _); run;
      (eexists; split; [reflexivity|]; split; [reflexivity|]);
      cbn; rewrite !in_app_iff; cbn; tauto.
  - eexists; split; [reflexivity|]; split; [reflexivity|].
    cbn; rewrite !in_app_iff; cbn; tauto.
Qed.

Lemma insert_without_row_fails_late_witness :
  exists llm w,
    serve Sample.parse
      (Sample.request (Sample.profile 5 5 (str "< 500") None))
      (Sample.env (Sample.answer Sample.six_text)
         (InsertReturns None None) Sample.stored)
    = (inl {| status := 500; body := ErrorBody (TypeErrorMessage "id") |}, w)
    /\ writes w
       = IntoProfiles
           (Run.profileRow
              (Sample.request (Sample.profile 5 5 (str "< 500") None))
              (Sample.env (Sample.answer Sample.six_text)
                 (InsertReturns None None) Sample.stored)
              {| uid := str "u1" |} llm)
         :: (if Run.worthStoring llm
             then [IntoLLMOutputs
                     (Run.llmOutputRow
                        (Sample.request (Sample.profile 5 5 (str "< 500") None))
                        (Sample.env (Sample.answer Sample.six_text)
                           (InsertReturns None None) Sample.stored) llm)]
             else []).
Proof.
  destruct (insert_without_row_fails_late Sample.parse
              (Sample.request (Sample.profile 5 5 (str "< 500") None))
              (Sample.env (Sample.answer Sample.six_text)
                 (InsertReturns None None) Sample.stored)
              {| uid := str "u1" |})
    as (llm & w & Hs & Hw & _).
  - apply sample_authenticated.
  - reflexivity.
  - intros row. reflexivity.
  - exists llm, w. split; [exact Hs | exact Hw].
Defined.
